(** * OneStopRadio mock media server: a model of the two HTTP handlers

    The repository holds two variants of one mock server:
    [mock_cpp_server.py] (port 8080) and [start_mock_server_8082.py]
    (port 8082).  Both keep one process-wide dictionary [server_state] and
    answer GET and POST requests with JSON documents.  This file embeds the
    handlers of both variants as functions over an explicit state and proves
    the properties the specification states about them.

    Conventions of the embedding.
    - A Python [float] is a value of [pyfloat]: an exact rational, one of the
      two infinities, or nan.  The order and the special values follow
      Python; arithmetic on finite values is exact, so rounding is not part
      of the model.  The finite range of a double is modelled where Python
      raises for it: [float] of an integer too large for a double raises
      [OverflowError].
    - The dictionaries with a fixed key set ([server_state] and its
      sub-dictionaries) are records; [channels] is a list, as in the source.
    - Request bodies and responses are JSON values; a JSON object is an
      association list in insertion order.
    - A handler runs in a small state-and-exception monad.  An exception that
      no [except] clause catches ends the handler without a response; what
      was assigned before it was raised stays assigned.
    - The clock, the ISO timestamp, the pseudo-random source and what
      [sys.stdout] can encode are supplied by the environment of each request
      ([Env]).  The fixed texts the handlers print are taken to be encodable,
      and with them the path and the values printed after [float] accepted
      them; the name of a loaded track, which is printed as the body gave
      it, is printed through [print_value].
    - [urlparse] is a parameter of [receive], which models the first
      statements of [do_GET] and [do_POST]: the parsing of the request
      target and, for a POST, the reading of the Content-Length header.
      [handle] starts from the path and the body these statements give. *)

From Stdlib Require Import ZArith QArith Qround Lqa Lia Bool String Ascii List.
From Stdlib Require Import DecimalString.
From stdpp Require Import base list.
Import ListNotations.

Local Open Scope Z_scope.

(** ** Python floats *)

Inductive pyfloat : Type :=
| Finite (q : Q)
| PosInf
| NegInf
| NaN.

Definition Qltb (x y : Q) : bool :=
  match (x ?= y)%Q with Lt => true | _ => false end.

(** [a < b] and [a <= b] on floats; every comparison with nan is false. *)
Definition flt (a b : pyfloat) : bool :=
  match a, b with
  | NaN, _ | _, NaN => false
  | Finite x, Finite y => Qltb x y
  | NegInf, NegInf => false
  | NegInf, _ => true
  | _, NegInf => false
  | PosInf, _ => false
  | Finite _, PosInf => true
  end.

Definition fle (a b : pyfloat) : bool :=
  match a, b with
  | NaN, _ | _, NaN => false
  | Finite x, Finite y => Qle_bool x y
  | NegInf, _ => true
  | _, PosInf => true
  | _, NegInf => false
  | PosInf, Finite _ => false
  end.

(** The builtins [min] and [max] keep their first argument unless a later one
    is strictly smaller (resp. greater). *)
Definition py_min (a b : pyfloat) : pyfloat := if flt b a then b else a.
Definition py_max (a b : pyfloat) : pyfloat := if flt a b then b else a.
Definition py_max3 (a b c : pyfloat) : pyfloat := py_max (py_max a b) c.

Definition fneg (a : pyfloat) : pyfloat :=
  match a with
  | Finite x => Finite (Qred (- x))
  | PosInf => NegInf
  | NegInf => PosInf
  | NaN => NaN
  end.

Definition fadd (a b : pyfloat) : pyfloat :=
  match a, b with
  | NaN, _ | _, NaN => NaN
  | Finite x, Finite y => Finite (Qred (x + y))
  | PosInf, NegInf | NegInf, PosInf => NaN
  | PosInf, _ | _, PosInf => PosInf
  | NegInf, _ | _, NegInf => NegInf
  end.

Definition fsub (a b : pyfloat) : pyfloat := fadd a (fneg b).

(** The infinity with the sign of [x], nan for [x = 0]. *)
Definition signed_inf (positive : bool) (x : Q) : pyfloat :=
  match (x ?= 0)%Q with
  | Eq => NaN
  | Gt => if positive then PosInf else NegInf
  | Lt => if positive then NegInf else PosInf
  end.

Definition fmul (a b : pyfloat) : pyfloat :=
  match a, b with
  | NaN, _ | _, NaN => NaN
  | Finite x, Finite y => Finite (Qred (x * y))
  | PosInf, Finite x | Finite x, PosInf => signed_inf true x
  | NegInf, Finite x | Finite x, NegInf => signed_inf false x
  | PosInf, PosInf | NegInf, NegInf => PosInf
  | PosInf, NegInf | NegInf, PosInf => NegInf
  end.

(** ** Exceptions and results *)

Inductive exn : Type :=
| ValueError
| TypeError
| IndexError
| AttributeError
| ZeroDivisionError
| OverflowError.

Inductive result (A : Type) : Type :=
| Ok (a : A)
| Raise (e : exn).
Arguments Ok {A} a.
Arguments Raise {A} e.

(** [a / b]; Python raises on a zero divisor. *)
Definition fdiv (a b : pyfloat) : result pyfloat :=
  match b with
  | Finite y =>
      if Qeq_bool y 0 then Raise ZeroDivisionError
      else Ok match a with
              | Finite x => Finite (Qred (x / y))
              | PosInf => signed_inf true y
              | NegInf => signed_inf false y
              | NaN => NaN
              end
  | PosInf | NegInf =>
      Ok match a with
         | Finite _ => Finite 0
         | _ => NaN
         end
  | NaN => Ok NaN
  end.

(** [int(x)] on a finite float: truncation towards zero. *)
Definition Qtruncate (x : Q) : Z := Z.quot (Qnum x) (Zpos (Qden x)).

(** [round(x, 1)]: one decimal place, ties to the even neighbour. *)
Definition round_half_even (x : Q) : Z :=
  let n := Qfloor x in
  match (x - inject_Z n ?= 1 # 2)%Q with
  | Lt => n
  | Gt => n + 1
  | Eq => if Z.even n then n else n + 1
  end.

Definition py_round1 (a : pyfloat) : pyfloat :=
  match a with
  | Finite x => Finite (Qred (inject_Z (round_half_even (x * 10)) / 10))
  | _ => a
  end.

(** ** JSON values *)

#[local] Set Warnings "-register-all".

Inductive json : Type :=
| JNull
| JBool (b : bool)
| JInt (n : Z)
| JFloat (x : pyfloat)
| JStr (s : string)
| JList (l : list json)
| JDict (kv : list (string * json)).

Fixpoint assoc (key : string) (kv : list (string * json)) : option json :=
  match kv with
  | [] => None
  | (k, v) :: kv' => if String.eqb k key then Some v else assoc key kv'
  end.

(** [d[key]] on a JSON document, [None] when [d] is no object or lacks the key. *)
Definition json_field (key : string) (d : json) : option json :=
  match d with
  | JDict kv => assoc key kv
  | _ => None
  end.

(** [body.get(key, default)]: only a dictionary has a [get] method. *)
Definition dict_get (body : json) (key : string) (default : json) : result json :=
  match body with
  | JDict kv =>
      Ok match assoc key kv with
         | Some v => v
         | None => default
         end
  | _ => Raise AttributeError
  end.

(** ** Strings: the [str] methods and the builtins [int] and [float] *)

Local Open Scope string_scope.

(** [s.startswith(p)] *)
Definition startswith (s p : string) : bool := String.prefix p s.

Fixpoint rev_string (acc s : string) : string :=
  match s with
  | EmptyString => acc
  | String c s' => rev_string (String c acc) s'
  end.

(** [s.endswith(p)] *)
Definition endswith (s p : string) : bool :=
  String.prefix (rev_string "" p) (rev_string "" s).

(** [s.split(sep)] for a one-character separator: the pieces between the
    separators, empty pieces included. *)
Fixpoint split (sep : ascii) (s : string) : list string :=
  match s with
  | EmptyString => [EmptyString]
  | String c s' =>
      if Ascii.eqb c sep then EmptyString :: split sep s'
      else match split sep s' with
           | piece :: pieces => String c piece :: pieces
           | [] => [String c EmptyString]
           end
  end.

(** [str(n)] for an integer. *)
Definition str_of_Z (n : Z) : string := NilZero.string_of_int (Z.to_int n).

Definition is_digit (c : ascii) : bool :=
  let n := nat_of_ascii c in (48 <=? n)%nat && (n <=? 57)%nat.

Definition digit_val (c : ascii) : Z := Z.of_nat (nat_of_ascii c - 48).

(** The characters [int] and [float] strip from the ends of a string, among
    the code points below 256: the ASCII white space (tab to carriage return
    and the space) and the two Unicode spaces U+0085 and U+00A0.  The
    separators U+001C to U+001F are not stripped. *)
Definition is_space (c : ascii) : bool :=
  let n := nat_of_ascii c in
  ((9 <=? n)%nat && (n <=? 13)%nat) || (n =? 32)%nat
  || (n =? 133)%nat || (n =? 160)%nat.

Fixpoint lstrip (l : list ascii) : list ascii :=
  match l with
  | c :: l' => if is_space c then lstrip l' else l
  | [] => []
  end.

(** [s] without the white space [int] and [float] strip, as a list of
    characters. *)
Definition strip (s : string) : list ascii :=
  rev (lstrip (rev (lstrip (list_ascii_of_string s)))).

(** After a first digit: further digits, each optionally preceded by one
    underscore.  Returns the value read, the number of digits and the rest. *)
Fixpoint digits_tail (acc : Z) (count : nat) (l : list ascii)
  : Z * nat * list ascii :=
  match l with
  | c :: l' =>
      if is_digit c then digits_tail (10 * acc + digit_val c) (S count) l'
      else if Ascii.eqb c "_" then
        match l' with
        | d :: l'' =>
            if is_digit d
            then digits_tail (10 * acc + digit_val d) (S count) l''
            else (acc, count, l)
        | [] => (acc, count, l)
        end
      else (acc, count, l)
  | [] => (acc, count, [])
  end.

(** A non-empty group of digits. *)
Definition digitpart (l : list ascii) : option (Z * nat * list ascii) :=
  match l with
  | c :: l' => if is_digit c then Some (digits_tail (digit_val c) 1 l') else None
  | [] => None
  end.

(** An optional sign: [true] for a minus. *)
Definition sign (l : list ascii) : bool * list ascii :=
  match l with
  | c :: l' =>
      if Ascii.eqb c "-" then (true, l')
      else if Ascii.eqb c "+" then (false, l')
      else (false, l)
  | [] => (false, [])
  end.

(** [int(s)] in base ten; [None] stands for [ValueError]. *)
Definition py_int (s : string) : option Z :=
  let '(neg, l) := sign (strip s) in
  match digitpart l with
  | Some (v, _, []) => Some (if neg then - v else v)
  | _ => None
  end.

Definition lower (c : ascii) : ascii :=
  let n := nat_of_ascii c in
  if (65 <=? n)%nat && (n <=? 90)%nat then ascii_of_nat (n + 32) else c.

Definition pow10 (e : Z) : Q :=
  if (0 <=? e)%Z then inject_Z (10 ^ e) else Qinv (inject_Z (10 ^ (- e))).

(** The decimal number [digits * 10 ^ e]. *)
Definition decimal (neg : bool) (digits e : Z) : pyfloat :=
  let q := (inject_Z digits * pow10 e)%Q in
  Finite (Qred (if neg then Qopp q else q)).

(** The exponent part of a float literal and what follows an optional one. *)
Definition exponent (l : list ascii) : option (Z * list ascii) :=
  match l with
  | c :: l' =>
      if Ascii.eqb (lower c) "e" then
        let '(neg, l'') := sign l' in
        match digitpart l'' with
        | Some (v, _, rest) => Some (if neg then - v else v, rest)
        | None => None
        end
      else Some (0, l)
  | [] => Some (0, [])
  end.

(** [float(s)] for a string; [None] stands for [ValueError]. *)
Definition py_float_of_str (s : string) : option pyfloat :=
  let '(neg, l) := sign (strip s) in
  let word := string_of_list_ascii (map lower l) in
  if String.eqb word "inf" || String.eqb word "infinity"
  then Some (if neg then NegInf else PosInf)
  else if String.eqb word "nan" then Some NaN
  else
    let '(ip, l1) :=
      match digitpart l with
      | Some (v, _, rest) => (Some v, rest)
      | None => (None, l)
      end in
    let '(fp, l2) :=
      match l1 with
      | c :: rest =>
          if Ascii.eqb c "." then
            match digitpart rest with
            | Some (v, n, rest') => (Some (v, n), rest')
            | None => (None, rest)
            end
          else (None, l1)
      | [] => (None, [])
      end in
    match ip, fp with
    | None, None => None
    | _, _ =>
        let i := match ip with Some v => v | None => 0 end in
        let '(f, n) := match fp with Some vn => vn | None => (0, 0%nat) end in
        match exponent l2 with
        | Some (e, []) =>
            Some (decimal neg (i * 10 ^ Z.of_nat n + f) (e - Z.of_nat n))
        | _ => None
        end
    end.

(** The least magnitude of an integer that [float] does not convert: the
    midpoint between the largest double, [2^1024 - 2^971], and [2^1024],
    which rounds to even, that is up. *)
Definition float_int_limit : Z := 2 ^ 1024 - 2 ^ 970.

(** [float(value)] for a value of a parsed JSON document. *)
Definition py_float (value : json) : result pyfloat :=
  match value with
  | JFloat x => Ok x
  | JInt n =>
      if (Z.abs n <? float_int_limit)%Z then Ok (Finite (inject_Z n))
      else Raise OverflowError
  | JBool b => Ok (Finite (if b then 1 else 0))
  | JStr s =>
      match py_float_of_str s with
      | Some x => Ok x
      | None => Raise ValueError
      end
  | JNull | JList _ | JDict _ => Raise TypeError
  end.

(** ** The state: [server_state] *)

Record EQ : Type := mkEQ {
  low : pyfloat;
  mid : pyfloat;
  high : pyfloat
}.

Record Channel : Type := mkChannel {
  ch_id : Z;
  volume : pyfloat;
  loaded_track : json;
  is_playing : bool;
  position : pyfloat;
  ch_eq : EQ
}.

Record Mixer : Type := mkMixer {
  crossfader : pyfloat;
  master_volume : pyfloat;
  channels : list Channel
}.

Record Microphone : Type := mkMicrophone {
  enabled : bool;
  muted : bool;
  gain : pyfloat;
  talkover : bool
}.

(** [audio_levels] starts with seven keys; [other_levels] holds the entries a
    computed key would add beside them. *)
Record AudioLevels : Type := mkAudioLevels {
  master_left : pyfloat;
  master_right : pyfloat;
  channel_1_left : pyfloat;
  channel_1_right : pyfloat;
  channel_2_left : pyfloat;
  channel_2_right : pyfloat;
  microphone_level : pyfloat;
  other_levels : list (string * pyfloat)
}.

Record ServerState : Type := mkServerState {
  status : string;
  uptime : Z;
  start_time : Q;
  mixer : Mixer;
  microphone : Microphone;
  audio_levels : AudioLevels
}.

Definition initial_channel (n : Z) : Channel :=
  {| ch_id := n;
     volume := Finite 0.7;
     loaded_track := JNull;
     is_playing := false;
     position := Finite 0;
     ch_eq := {| low := Finite 0; mid := Finite 0; high := Finite 0 |} |}.

(** The module-level [server_state] of both files; [now] is [time.time()] at
    start-up. *)
Definition initial_state (now : Q) : ServerState :=
  {| status := "running";
     uptime := 0;
     start_time := now;
     mixer := {| crossfader := Finite 0.5;
                 master_volume := Finite 0.8;
                 channels := [initial_channel 1; initial_channel 2] |};
     microphone := {| enabled := false;
                      muted := false;
                      gain := Finite 0.5;
                      talkover := false |};
     audio_levels := {| master_left := Finite 0;
                        master_right := Finite 0;
                        channel_1_left := Finite 0;
                        channel_1_right := Finite 0;
                        channel_2_left := Finite 0;
                        channel_2_right := Finite 0;
                        microphone_level := Finite 0;
                        other_levels := [] |} |}.

(** *** Assignments to one key *)

Definition set_volume (x : pyfloat) (c : Channel) : Channel :=
  {| ch_id := ch_id c; volume := x; loaded_track := loaded_track c;
     is_playing := is_playing c; position := position c; ch_eq := ch_eq c |}.

Definition set_loaded_track (t : json) (c : Channel) : Channel :=
  {| ch_id := ch_id c; volume := volume c; loaded_track := t;
     is_playing := is_playing c; position := position c; ch_eq := ch_eq c |}.

Definition set_is_playing (b : bool) (c : Channel) : Channel :=
  {| ch_id := ch_id c; volume := volume c; loaded_track := loaded_track c;
     is_playing := b; position := position c; ch_eq := ch_eq c |}.

Definition set_position (x : pyfloat) (c : Channel) : Channel :=
  {| ch_id := ch_id c; volume := volume c; loaded_track := loaded_track c;
     is_playing := is_playing c; position := x; ch_eq := ch_eq c |}.

Definition set_crossfader (x : pyfloat) (m : Mixer) : Mixer :=
  {| crossfader := x; master_volume := master_volume m; channels := channels m |}.

Definition set_master_volume (x : pyfloat) (m : Mixer) : Mixer :=
  {| crossfader := crossfader m; master_volume := x; channels := channels m |}.

Definition set_channels (l : list Channel) (m : Mixer) : Mixer :=
  {| crossfader := crossfader m; master_volume := master_volume m; channels := l |}.

Definition set_enabled (b : bool) (m : Microphone) : Microphone :=
  {| enabled := b; muted := muted m; gain := gain m; talkover := talkover m |}.

Definition set_gain (x : pyfloat) (m : Microphone) : Microphone :=
  {| enabled := enabled m; muted := muted m; gain := x; talkover := talkover m |}.

Definition set_talkover (b : bool) (m : Microphone) : Microphone :=
  {| enabled := enabled m; muted := muted m; gain := gain m; talkover := b |}.

Fixpoint assoc_set (key : string) (x : pyfloat) (kv : list (string * pyfloat))
  : list (string * pyfloat) :=
  match kv with
  | [] => [(key, x)]
  | (k, v) :: kv' =>
      if String.eqb k key then (k, x) :: kv' else (k, v) :: assoc_set key x kv'
  end.

(** [audio_levels[key] = x] *)
Definition set_level (key : string) (x : pyfloat) (a : AudioLevels) : AudioLevels :=
  let '(mkAudioLevels ml mr c1l c1r c2l c2r mic others) := a in
  if String.eqb key "master_left" then mkAudioLevels x mr c1l c1r c2l c2r mic others
  else if String.eqb key "master_right" then mkAudioLevels ml x c1l c1r c2l c2r mic others
  else if String.eqb key "channel_1_left" then mkAudioLevels ml mr x c1r c2l c2r mic others
  else if String.eqb key "channel_1_right" then mkAudioLevels ml mr c1l x c2l c2r mic others
  else if String.eqb key "channel_2_left" then mkAudioLevels ml mr c1l c1r x c2r mic others
  else if String.eqb key "channel_2_right" then mkAudioLevels ml mr c1l c1r c2l x mic others
  else if String.eqb key "microphone" then mkAudioLevels ml mr c1l c1r c2l c2r x others
  else mkAudioLevels ml mr c1l c1r c2l c2r mic (assoc_set key x others).

Definition with_uptime (n : Z) (s : ServerState) : ServerState :=
  {| status := status s; uptime := n; start_time := start_time s;
     mixer := mixer s; microphone := microphone s;
     audio_levels := audio_levels s |}.

Definition with_mixer (f : Mixer -> Mixer) (s : ServerState) : ServerState :=
  {| status := status s; uptime := uptime s; start_time := start_time s;
     mixer := f (mixer s); microphone := microphone s;
     audio_levels := audio_levels s |}.

Definition with_microphone (f : Microphone -> Microphone) (s : ServerState)
  : ServerState :=
  {| status := status s; uptime := uptime s; start_time := start_time s;
     mixer := mixer s; microphone := f (microphone s);
     audio_levels := audio_levels s |}.

Definition with_audio_levels (f : AudioLevels -> AudioLevels) (s : ServerState)
  : ServerState :=
  {| status := status s; uptime := uptime s; start_time := start_time s;
     mixer := mixer s; microphone := microphone s;
     audio_levels := f (audio_levels s) |}.

(** *** The state as a JSON document, as [json.dumps] receives it *)

Definition eq_json (e : EQ) : json :=
  JDict [("low", JFloat (low e)); ("mid", JFloat (mid e)); ("high", JFloat (high e))].

Definition channel_json (c : Channel) : json :=
  JDict [("id", JInt (ch_id c));
         ("volume", JFloat (volume c));
         ("loaded_track", loaded_track c);
         ("is_playing", JBool (is_playing c));
         ("position", JFloat (position c));
         ("eq", eq_json (ch_eq c))].

Definition mixer_json (m : Mixer) : json :=
  JDict [("crossfader", JFloat (crossfader m));
         ("master_volume", JFloat (master_volume m));
         ("channels", JList (map channel_json (channels m)))].

Definition microphone_json (m : Microphone) : json :=
  JDict [("enabled", JBool (enabled m));
         ("muted", JBool (muted m));
         ("gain", JFloat (gain m));
         ("talkover", JBool (talkover m))].

Definition audio_levels_json (a : AudioLevels) : json :=
  JDict ([("master_left", JFloat (master_left a));
          ("master_right", JFloat (master_right a));
          ("channel_1_left", JFloat (channel_1_left a));
          ("channel_1_right", JFloat (channel_1_right a));
          ("channel_2_left", JFloat (channel_2_left a));
          ("channel_2_right", JFloat (channel_2_right a));
          ("microphone", JFloat (microphone_level a))]
         ++ map (fun kv => (fst kv, JFloat (snd kv))) (other_levels a))%list.

(** ** Requests, responses and the handler monad *)

(** What one request reads from outside the program: the clock
    ([time.time()]), the timestamp ([datetime.now().isoformat()]), the
    generator behind [random] (the successive results of [random.random()]
    and the successive raw integers behind [random.randint]), and whether
    [sys.stdout] can encode the text of a value (under UTF-8 every text
    without a lone surrogate). *)
Record Env : Type := mkEnv {
  time_now : Q;
  iso_now : string;
  random_draw : nat -> Q;
  randbelow_draw : nat -> nat;
  stdout_encodes : json -> bool
}.

(** [print(f"... {value} ...")]: writing a text [sys.stdout] cannot encode
    raises [UnicodeEncodeError], which is a [ValueError]. *)
Definition print_value (env : Env) (value : json) : result unit :=
  if stdout_encodes env value then Ok tt else Raise ValueError.

(** The state of a run: the dictionary and the number of draws taken from
    the generator so far. *)
Record Store : Type := mkStore {
  server_state : ServerState;
  drawn : nat
}.

Definition M (A : Type) : Type := Store -> Store * result A.

Definition ret {A} (a : A) : M A := fun st => (st, Ok a).

Definition bind {A B} (c : M A) (k : A -> M B) : M B :=
  fun st =>
    match c st with
    | (st', Ok a) => k a st'
    | (st', Raise e) => (st', Raise e)
    end.

Declare Scope monad_scope.
Delimit Scope monad_scope with monad.
Notation "x <- c ;; k" := (bind c (fun x => k))
  (at level 100, c at next level, right associativity) : monad_scope.
Notation "c ;; k" := (bind c (fun _ => k))
  (at level 100, right associativity) : monad_scope.
Local Open Scope monad_scope.

Definition raise {A} (e : exn) : M A := fun st => (st, Raise e).

Definition lift {A} (r : result A) : M A := fun st => (st, r).

Definition get_state : M ServerState := fun st => (st, Ok (server_state st)).

Definition modify (f : ServerState -> ServerState) : M unit :=
  fun st => (mkStore (f (server_state st)) (drawn st), Ok tt).

(** [try: body except (e1, e2, ...): handler] *)
Definition try_except {A} (body : M A) (caught : exn -> bool) (handler : M A)
  : M A :=
  fun st =>
    match body st with
    | (st', Raise e) => if caught e then handler st' else (st', Raise e)
    | r => r
    end.

Definition ValueError_or_IndexError (e : exn) : bool :=
  match e with
  | ValueError | IndexError => true
  | _ => false
  end.

(** [l[i]] for a list index that is not negative. *)
Definition index {A} (l : list A) (i : nat) : M A :=
  match l !! i with
  | Some a => ret a
  | None => raise IndexError
  end.

(** [int(s)] *)
Definition int (s : string) : M Z :=
  match py_int s with
  | Some n => ret n
  | None => raise ValueError
  end.

(** [server_state['mixer']['channels'][i]] *)
Definition channel (i : nat) : M Channel :=
  s <- get_state ;; index (channels (mixer s)) i.

(** [server_state['mixer']['channels'][i][key] = ...] with [f] the assignment
    to [key] *)
Definition set_channel (i : nat) (f : Channel -> Channel) : M unit :=
  _ <- channel i ;;
  modify (with_mixer (fun m => set_channels (alter f i (channels m)) m)).

Record reply : Type := mkReply {
  status_code : Z;
  data : json
}.

(** [self.send_json_response(data, status_code)], the last statement of every
    branch that calls it. *)
Definition send_json_response (data : json) (status_code : Z) : M reply :=
  ret (mkReply status_code data).

Section Random.
Variable env : Env.

(** [random.random()] *)
Definition random : M pyfloat :=
  fun st =>
    (mkStore (server_state st) (S (drawn st)),
     Ok (Finite (random_draw env (drawn st)))).

(** [random.uniform(a, b)], which is [a + (b - a) * random()] *)
Definition uniform (a b : pyfloat) : M pyfloat :=
  r <- random ;; ret (fadd a (fmul (fsub b a) r)).

(** [random.randint(a, b)]: [a] plus a draw below [b - a + 1] *)
Definition randint (a b : Z) : M Z :=
  fun st =>
    (mkStore (server_state st) (S (drawn st)),
     Ok (a + Z.of_nat (randbelow_draw env (drawn st)) mod (b - a + 1))).
End Random.

Inductive method : Type := GET | POST | OPTIONS.

(** A request as the branches of a handler see it: the method, the path
    component [urlparse] extracted from the target (see [receive] for the
    target itself), and the decoded JSON body ([None] when there is no body
    or it does not decode, in which case [body] stays [{}]). *)
Record request : Type := mkRequest {
  req_method : method;
  req_path : string;
  req_body : option json
}.

(** What the client gets: a JSON response, the bare headers of a preflight
    answer, or nothing when the handler ended with an exception. *)
Inductive outcome : Type :=
| Reply (status_code : Z) (data : json)
| Headers (status_code : Z)
| Died (e : exn).

Definition run (c : M reply) (s : ServerState) : ServerState * outcome :=
  match c (mkStore s 0) with
  | (st, Ok r) => (server_state st, Reply (status_code r) (data r))
  | (st, Raise e) => (server_state st, Died e)
  end.

(** [audio_levels[key] = x] on the state. *)
Definition set_audio_level (key : string) (x : pyfloat) : M unit :=
  modify (with_audio_levels (set_level key x)).

(** [action == s] for a string literal [s] *)
Definition equals_str (action : json) (s : string) : bool :=
  match action with
  | JStr t => String.eqb t s
  | _ => false
  end.

(** The body as [do_POST] reads it: [{}] unless a body was sent and decoded. *)
Definition read_body (payload : option json) : json :=
  match payload with
  | Some j => j
  | None => JDict []
  end.

(** ** [mock_cpp_server.py] (port 8080) *)

Module MockCppServer.
Section Handler.
(** [str(v)] for a value that is not a string, as an f-string formats it. *)
Variable py_str : json -> string.
Variable env : Env.

Definition format_value (v : json) : string :=
  match v with
  | JStr s => s
  | _ => py_str v
  end.

Definition available_endpoints : json :=
  JList [JStr "GET /api/health - Server health check";
         JStr "GET /api/stats - Server statistics";
         JStr "GET /api/mixer/status - Mixer status and levels";
         JStr "GET /api/mixer/microphone/status - Microphone status";
         JStr "GET /api/audio/levels - Real-time audio levels";
         JStr "POST /api/mixer/crossfader - Set crossfader position";
         JStr "POST /api/mixer/channel/{id}/volume - Set channel volume";
         JStr "POST /api/mixer/channel/{id}/load - Load track to channel";
         JStr "POST /api/mixer/channel/{id}/playback - Control playback";
         JStr "POST /api/mixer/microphone/toggle - Toggle microphone"].

Definition invalid_channel_id : M reply :=
  send_json_response
    (JDict [("success", JBool false); ("error", JStr "Invalid channel ID")]) 400.

Definition invalid_channel_id_in_path : M reply :=
  send_json_response
    (JDict [("success", JBool false);
            ("error", JStr "Invalid channel ID in path")]) 400.

Definition do_GET (path : string) : M reply :=
  modify (fun s => with_uptime (Qtruncate (time_now env - start_time s)) s) ;;
  if String.eqb path "/api/health" then
    s <- get_state ;;
    send_json_response
      (JDict [("status", JStr "ok");
              ("service", JStr "C++ Media Server Mock");
              ("version", JStr "1.0.0");
              ("uptime", JInt (uptime s));
              ("timestamp", JStr (iso_now env))]) 200
  else if String.eqb path "/api/stats" then
    s <- get_state ;;
    cpu <- uniform env (Finite 10) (Finite 30) ;;
    memory <- uniform env (Finite 40) (Finite 80) ;;
    connections <- randint env 0 5 ;;
    send_json_response
      (JDict [("success", JBool true);
              ("stats",
               JDict [("uptime", JInt (uptime s));
                      ("cpu_usage", JFloat (py_round1 cpu));
                      ("memory_usage", JFloat (py_round1 memory));
                      ("audio_buffer_health", JStr "good");
                      ("active_connections", JInt connections)])]) 200
  else if String.eqb path "/api/mixer/status" then
    c <- channel 0 ;;
    (if is_playing c then
       x <- uniform env (Finite 0.3) (Finite 0.9) ;;
       set_audio_level "channel_1_left" x ;;
       y <- uniform env (Finite 0.3) (Finite 0.9) ;;
       set_audio_level "channel_1_right" y
     else
       set_audio_level "channel_1_left" (Finite 0) ;;
       set_audio_level "channel_1_right" (Finite 0)) ;;
    c <- channel 1 ;;
    (if is_playing c then
       x <- uniform env (Finite 0.3) (Finite 0.9) ;;
       set_audio_level "channel_2_left" x ;;
       y <- uniform env (Finite 0.3) (Finite 0.9) ;;
       set_audio_level "channel_2_right" y
     else
       set_audio_level "channel_2_left" (Finite 0) ;;
       set_audio_level "channel_2_right" (Finite 0)) ;;
    s <- get_state ;;
    let crossfader := crossfader (mixer s) in
    c <- channel 0 ;;
    let ch1_vol := volume c in
    c <- channel 1 ;;
    let ch2_vol := volume c in
    let master_vol := master_volume (mixer s) in
    let ch1_output :=
      fmul (fmul (fmul (channel_1_left (audio_levels s)) ch1_vol)
                 (fsub (Finite 1) crossfader)) master_vol in
    let ch2_output :=
      fmul (fmul (fmul (channel_2_left (audio_levels s)) ch2_vol)
                 crossfader) master_vol in
    set_audio_level "master_left" (py_max ch1_output ch2_output) ;;
    set_audio_level "master_right" (py_max ch1_output ch2_output) ;;
    s <- get_state ;;
    send_json_response
      (JDict [("success", JBool true);
              ("mixer", mixer_json (mixer s));
              ("audio_levels", audio_levels_json (audio_levels s))]) 200
  else if String.eqb path "/api/mixer/microphone/status" then
    s <- get_state ;;
    send_json_response
      (JDict [("success", JBool true);
              ("microphone", microphone_json (microphone s))]) 200
  else if String.eqb path "/api/audio/levels" then
    s <- get_state ;;
    send_json_response
      (JDict [("success", JBool true);
              ("levels", audio_levels_json (audio_levels s))]) 200
  else
    send_json_response
      (JDict [("success", JBool false);
              ("error", JStr "Endpoint not found");
              ("available_endpoints", available_endpoints)]) 404.

Definition do_POST (path : string) (payload : option json) : M reply :=
  let body := read_body payload in
  if String.eqb path "/api/mixer/crossfader" then
    value <- lift (dict_get body "value" (JFloat (Finite 0.5))) ;;
    x <- lift (py_float value) ;;
    modify (with_mixer (set_crossfader (py_max (Finite 0) (py_min (Finite 1) x)))) ;;
    s <- get_state ;;
    send_json_response
      (JDict [("success", JBool true);
              ("action", JStr "crossfader_set");
              ("value", JFloat (crossfader (mixer s)))]) 200
  else if startswith path "/api/mixer/channel/" && endswith path "/volume" then
    let parts := split "/" path in
    try_except
      (segment <- index parts 4 ;;
       n <- int segment ;;
       let channel_id := n - 1 in
       if (0 <=? channel_id)%Z && (channel_id <? 2)%Z then
         value <- lift (dict_get body "value" (JFloat (Finite 0.7))) ;;
         x <- lift (py_float value) ;;
         set_channel (Z.to_nat channel_id)
           (set_volume (py_max (Finite 0) (py_min (Finite 1) x))) ;;
         c <- channel (Z.to_nat channel_id) ;;
         send_json_response
           (JDict [("success", JBool true);
                   ("action", JStr "channel_volume_set");
                   ("channel", JInt (channel_id + 1));
                   ("value", JFloat (volume c))]) 200
       else invalid_channel_id)
      ValueError_or_IndexError
      invalid_channel_id_in_path
  else if startswith path "/api/mixer/channel/" && endswith path "/load" then
    let parts := split "/" path in
    try_except
      (segment <- index parts 4 ;;
       n <- int segment ;;
       let channel_id := n - 1 in
       if (0 <=? channel_id)%Z && (channel_id <? 2)%Z then
         track_name <-
           lift (dict_get body "name"
                   (JStr ("Track_" ++ str_of_Z (Qtruncate (time_now env))))) ;;
         set_channel (Z.to_nat channel_id) (set_loaded_track track_name) ;;
         set_channel (Z.to_nat channel_id) (set_position (Finite 0)) ;;
         lift (print_value env track_name) ;;
         send_json_response
           (JDict [("success", JBool true);
                   ("action", JStr "track_loaded");
                   ("channel", JInt (channel_id + 1));
                   ("track", track_name)]) 200
       else invalid_channel_id)
      ValueError_or_IndexError
      invalid_channel_id_in_path
  else if startswith path "/api/mixer/channel/" && endswith path "/playback" then
    let parts := split "/" path in
    try_except
      (segment <- index parts 4 ;;
       n <- int segment ;;
       let channel_id := n - 1 in
       if (0 <=? channel_id)%Z && (channel_id <? 2)%Z then
         action <- lift (dict_get body "action" (JStr "play")) ;;
         (if equals_str action "play" then
            set_channel (Z.to_nat channel_id) (set_is_playing true)
          else if equals_str action "pause" then
            set_channel (Z.to_nat channel_id) (set_is_playing false)
          else if equals_str action "stop" then
            set_channel (Z.to_nat channel_id) (set_is_playing false) ;;
            set_channel (Z.to_nat channel_id) (set_position (Finite 0))
          else ret tt) ;;
         c <- channel (Z.to_nat channel_id) ;;
         send_json_response
           (JDict [("success", JBool true);
                   ("action", JStr ("playback_" ++ format_value action));
                   ("channel", JInt (channel_id + 1));
                   ("is_playing", JBool (is_playing c))]) 200
       else invalid_channel_id)
      ValueError_or_IndexError
      invalid_channel_id_in_path
  else if String.eqb path "/api/mixer/microphone/toggle" then
    modify (with_microphone (fun m => set_enabled (negb (enabled m)) m)) ;;
    s <- get_state ;;
    send_json_response
      (JDict [("success", JBool true);
              ("action", JStr "microphone_toggle");
              ("enabled", JBool (enabled (microphone s)))]) 200
  else if String.eqb path "/api/mixer/master/volume" then
    value <- lift (dict_get body "value" (JFloat (Finite 0.8))) ;;
    x <- lift (py_float value) ;;
    modify (with_mixer (set_master_volume (py_max (Finite 0) (py_min (Finite 1) x)))) ;;
    s <- get_state ;;
    send_json_response
      (JDict [("success", JBool true);
              ("action", JStr "master_volume_set");
              ("value", JFloat (master_volume (mixer s)))]) 200
  else
    send_json_response
      (JDict [("success", JBool false);
              ("error", JStr ("POST endpoint not implemented: " ++ path))]) 404.

(** One request against the state: [do_OPTIONS], [do_GET] or [do_POST]. *)
Definition handle (r : request) (s : ServerState) : ServerState * outcome :=
  match req_method r with
  | OPTIONS => (s, Headers 200)
  | GET => run (do_GET (req_path r)) s
  | POST => run (do_POST (req_path r) (req_body r)) s
  end.
End Handler.
End MockCppServer.

(** ** [start_mock_server_8082.py] (port 8082) *)

Module StartMockServer8082.
Section Handler.
Variable env : Env.

Definition available_endpoints : json :=
  JList [JStr "GET /api/health - Server health check";
         JStr "GET /api/mixer/status - Mixer status and levels";
         JStr "GET /api/mixer/microphone/status - Microphone status";
         JStr "POST /api/mixer/microphone/start - Start microphone";
         JStr "POST /api/mixer/microphone/stop - Stop microphone";
         JStr "POST /api/mixer/microphone/gain - Set microphone gain"].

(** The loop [for i, channel in enumerate(channels)], from index [i] on. *)
Fixpoint simulate_channel_levels (i : nat) (l : list Channel) : M unit :=
  match l with
  | [] => ret tt
  | channel :: l' =>
      let n := str_of_Z (Z.of_nat i + 1) in
      (if is_playing channel then
         x <- uniform env (Finite 0.3) (Finite 0.9) ;;
         set_audio_level ("channel_" ++ n ++ "_left") x ;;
         y <- uniform env (Finite 0.3) (Finite 0.9) ;;
         set_audio_level ("channel_" ++ n ++ "_right") y
       else
         set_audio_level ("channel_" ++ n ++ "_left") (Finite 0) ;;
         set_audio_level ("channel_" ++ n ++ "_right") (Finite 0)) ;;
      simulate_channel_levels (S i) l'
  end.

Definition simulate_audio_levels : M unit :=
  s <- get_state ;;
  (if enabled (microphone s) then
     x <- uniform env (Finite 0.3) (Finite 0.8) ;;
     set_audio_level "microphone" (fmul x (gain (microphone s)))
   else set_audio_level "microphone" (Finite 0)) ;;
  s <- get_state ;;
  simulate_channel_levels 0 (channels (mixer s)) ;;
  s <- get_state ;;
  c0 <- channel 0 ;;
  c1 <- channel 1 ;;
  set_audio_level "master_left"
    (fmul (py_max3 (fmul (channel_1_left (audio_levels s)) (volume c0))
                   (fmul (channel_2_left (audio_levels s)) (volume c1))
                   (microphone_level (audio_levels s)))
          (master_volume (mixer s))) ;;
  s <- get_state ;;
  set_audio_level "master_right" (master_left (audio_levels s)).

Definition do_GET (path : string) : M reply :=
  modify (fun s => with_uptime (Qtruncate (time_now env - start_time s)) s) ;;
  if String.eqb path "/api/health" then
    s <- get_state ;;
    send_json_response
      (JDict [("status", JStr "ok");
              ("service", JStr "C++ Media Server Mock");
              ("version", JStr "1.0.0");
              ("uptime", JInt (uptime s));
              ("timestamp", JStr (iso_now env))]) 200
  else if String.eqb path "/api/mixer/status" then
    simulate_audio_levels ;;
    s <- get_state ;;
    send_json_response
      (JDict [("success", JBool true);
              ("mixer", mixer_json (mixer s));
              ("audio_levels", audio_levels_json (audio_levels s))]) 200
  else if String.eqb path "/api/mixer/microphone/status" then
    s <- get_state ;;
    send_json_response
      (JDict [("success", JBool true);
              ("microphone", microphone_json (microphone s))]) 200
  else
    send_json_response
      (JDict [("success", JBool false);
              ("error", JStr "Endpoint not found");
              ("available_endpoints", available_endpoints)]) 404.

Definition do_POST (path : string) (payload : option json) : M reply :=
  let body := read_body payload in
  if String.eqb path "/api/mixer/microphone/start" then
    percent <- lift (dict_get body "gain" (JFloat (Finite 75))) ;;
    modify (with_microphone (set_enabled true)) ;;
    x <- lift (py_float percent) ;;
    g <- lift (fdiv (py_max (Finite 0) (py_min (Finite 100) x)) (Finite 100)) ;;
    modify (with_microphone (set_gain g)) ;;
    modify (with_microphone (set_talkover true)) ;;
    send_json_response
      (JDict [("success", JBool true);
              ("action", JStr "microphone_started");
              ("gain", percent);
              ("talkover_enabled", JBool true);
              ("message", JStr "Microphone started with auto-talkover")]) 200
  else if String.eqb path "/api/mixer/microphone/stop" then
    modify (with_microphone (set_enabled false)) ;;
    modify (with_microphone (set_talkover false)) ;;
    send_json_response
      (JDict [("success", JBool true);
              ("action", JStr "microphone_stopped");
              ("talkover_enabled", JBool false);
              ("message", JStr "Microphone stopped, talkover disabled")]) 200
  else if String.eqb path "/api/mixer/microphone/gain" then
    percent <- lift (dict_get body "gain" (JFloat (Finite 75))) ;;
    x <- lift (py_float percent) ;;
    g <- lift (fdiv (py_max (Finite 0) (py_min (Finite 100) x)) (Finite 100)) ;;
    modify (with_microphone (set_gain g)) ;;
    s <- get_state ;;
    send_json_response
      (JDict [("success", JBool true);
              ("action", JStr "microphone_gain_set");
              ("gain", percent);
              ("normalized_gain", JFloat (gain (microphone s)))]) 200
  else
    send_json_response
      (JDict [("success", JBool false);
              ("error", JStr ("POST endpoint not implemented: " ++ path))]) 404.

(** One request against the state: [do_OPTIONS], [do_GET] or [do_POST]. *)
Definition handle (r : request) (s : ServerState) : ServerState * outcome :=
  match req_method r with
  | OPTIONS => (s, Headers 200)
  | GET => run (do_GET (req_path r)) s
  | POST => run (do_POST (req_path r) (req_body r)) s
  end.
End Handler.
End StartMockServer8082.

(** ** The words of the specification *)

(** [clamp(v, lo, hi)]: [lo] for [v] at or below [lo], [hi] for [v] at or
    above [hi], and [v] itself in between. *)
Definition clamp (v lo hi : pyfloat) : pyfloat :=
  if fle v lo then lo else if fle hi v then hi else v.

(** [x] lies in [[0, 1]]. *)
Definition in_unit (x : pyfloat) : bool := fle (Finite 0) x && fle x (Finite 1).

(** A numeric value of a request body that [float] converts, and the number
    it denotes: an integer within the range of a double or a float other
    than nan. *)
Inductive json_number : json -> pyfloat -> Prop :=
| number_int (n : Z) :
    Z.abs n < float_int_limit -> json_number (JInt n) (Finite (inject_Z n))
| number_float (x : pyfloat) : x <> NaN -> json_number (JFloat x) x.

(** The invariants of the data model. *)
Record invariant (s : ServerState) : Prop := mkInvariant {
  inv_crossfader : in_unit (crossfader (mixer s)) = true;
  inv_master_volume : in_unit (master_volume (mixer s)) = true;
  inv_length : length (channels (mixer s)) = 2%nat;
  inv_ids : map ch_id (channels (mixer s)) = [1; 2];
  inv_volumes : Forall (fun c => in_unit (volume c) = true) (channels (mixer s));
  inv_positions :
    Forall (fun c => fle (Finite 0) (position c) = true) (channels (mixer s));
  inv_gain : in_unit (gain (microphone s)) = true
}.

(** The state after a sequence of requests, each with its environment. *)
Definition serve (handle : Env -> request -> ServerState -> ServerState * outcome)
  (trace : list (Env * request)) (s : ServerState) : ServerState :=
  fold_left (fun s er => fst (handle (fst er) (snd er) s)) trace s.

(** A path of one of the three channel routes:
    [path.startswith('/api/mixer/channel/') and path.endswith(suffix)]. *)
Definition channel_route (path suffix : string) : bool :=
  startswith path "/api/mixer/channel/" && endswith path suffix.

(** The channel a path names: its fifth piece, [parts[4]], read by [int]. *)
Definition addressed_channel (path : string) : option Z :=
  match split "/" path !! 4%nat with
  | Some segment => py_int segment
  | None => None
  end.

Definition post (path : string) (body : json) : request :=
  mkRequest POST path (Some body).

Definition get (path : string) : request := mkRequest GET path None.

(** The request is GET /api/health. *)
Definition is_health (r : request) : bool :=
  match req_method r with
  | GET => String.eqb (req_path r) "/api/health"
  | _ => false
  end.

(** The document has a field [success] that is [true] or [false]. *)
Definition has_success (d : json) : bool :=
  match json_field "success" d with
  | Some (JBool _) => true
  | _ => false
  end.

(** What holds of the [success] field of each JSON response: every response
    has one but the answer to GET /api/health, which has none. *)
Definition success_field_as_coded (r : request) (o : outcome) : bool :=
  match o with
  | Reply _ d =>
      if is_health r
      then match json_field "success" d with None => true | Some _ => false end
      else has_success d
  | Headers _ | Died _ => true
  end.

(** A computation only returns replies with the property [Q]. *)
Definition returns (Q : reply -> Prop) (c : M reply) : Prop :=
  forall st, match c st with
             | (_, Ok r) => Q r
             | (_, Raise _) => True
             end.

(** The output of one channel as the specification weighs it:
    level x volume x mix weight x master volume. *)
Definition weighted_output (level vol weight master : pyfloat) : pyfloat :=
  fmul (fmul (fmul level vol) weight) master.

(** The contribution of one channel before the master volume applies. *)
Definition contribution (level vol weight : pyfloat) : pyfloat :=
  fmul (fmul level vol) weight.

(** The master level of the specification: the maximum over the weighted
    channel outputs, with the weight [1 - crossfader] for channel 1 and
    [crossfader] for channel 2. *)
Definition crossfaded_master (s : ServerState) : option pyfloat :=
  match channels (mixer s) with
  | [c1; c2] =>
      let x := crossfader (mixer s) in
      let m := master_volume (mixer s) in
      Some (py_max
              (weighted_output (channel_1_left (audio_levels s)) (volume c1)
                 (fsub (Finite 1) x) m)
              (weighted_output (channel_2_left (audio_levels s)) (volume c2) x m))
  | _ => None
  end.

(** The largest channel contribution under the crossfader weights. *)
Definition crossfaded_contribution (s : ServerState) : option pyfloat :=
  match channels (mixer s) with
  | [c1; c2] =>
      let x := crossfader (mixer s) in
      Some (py_max
              (contribution (channel_1_left (audio_levels s)) (volume c1)
                 (fsub (Finite 1) x))
              (contribution (channel_2_left (audio_levels s)) (volume c2) x))
  | _ => None
  end.

(** The mix of the port-8082 server: the largest of the two channel levels
    scaled by their volumes and the microphone level; no crossfader. *)
Definition simplified_contribution (s : ServerState) : option pyfloat :=
  match channels (mixer s) with
  | [c1; c2] =>
      Some (py_max3
              (fmul (channel_1_left (audio_levels s)) (volume c1))
              (fmul (channel_2_left (audio_levels s)) (volume c2))
              (microphone_level (audio_levels s)))
  | _ => None
  end.

(** The levels a status query computes all lie in [[0, 1]]. *)
Definition levels_in_unit (with_microphone : bool) (a : AudioLevels) : bool :=
  in_unit (master_left a) && in_unit (master_right a)
  && in_unit (channel_1_left a) && in_unit (channel_1_right a)
  && in_unit (channel_2_left a) && in_unit (channel_2_right a)
  && (if with_microphone then in_unit (microphone_level a) else true).

(** Every result of [random.random()] lies in [[0, 1)]. *)
Definition random_in_range (env : Env) : Prop :=
  forall i, (0 <= random_draw env i < 1)%Q.

(** Two environments for concrete runs: the clock at 0 and the random
    source constantly 0, resp. constantly one half. *)
Definition env0 : Env :=
  mkEnv 0 "" (fun _ => 0%Q) (fun _ => 0%nat) (fun _ => true).

Definition env_half : Env :=
  mkEnv 0 "" (fun _ => 0.5%Q) (fun _ => 0%nat) (fun _ => true).

(** A state in which the first channel plays and the microphone is on. *)
Definition live_state : ServerState :=
  with_microphone (set_enabled true)
    (with_mixer
       (fun m => set_channels (alter (set_is_playing true) 0%nat (channels m)) m)
       (initial_state 0)).


(** [lo <= x < hi] *)
Definition in_range (lo hi x : pyfloat) : bool := fle lo x && flt x hi.

(** The paths [do_GET] of each server answers with status 200. *)
Definition known_get_8080 (path : string) : bool :=
  String.eqb path "/api/health" || String.eqb path "/api/stats"
  || String.eqb path "/api/mixer/status"
  || String.eqb path "/api/mixer/microphone/status"
  || String.eqb path "/api/audio/levels".

Definition known_get_8082 (path : string) : bool :=
  String.eqb path "/api/health" || String.eqb path "/api/mixer/status"
  || String.eqb path "/api/mixer/microphone/status".

(** The paths [do_POST] of each server has a branch for. *)
Definition known_post_8080 (path : string) : bool :=
  String.eqb path "/api/mixer/crossfader"
  || channel_route path "/volume" || channel_route path "/load"
  || channel_route path "/playback"
  || String.eqb path "/api/mixer/microphone/toggle"
  || String.eqb path "/api/mixer/master/volume".

Definition known_post_8082 (path : string) : bool :=
  String.eqb path "/api/mixer/microphone/start"
  || String.eqb path "/api/mixer/microphone/stop"
  || String.eqb path "/api/mixer/microphone/gain".

(** The request supplies no [key]: it has no decodable body, or its body is
    a dictionary without that key. *)
Definition lacks (key : string) (payload : option json) : bool :=
  match payload with
  | None => true
  | Some (JDict kv) =>
      match assoc key kv with
      | None => true
      | Some _ => false
      end
  | Some _ => false
  end.

(** The body decoded to a JSON value that is no object. *)
Definition not_a_dict (payload : option json) : bool :=
  match payload with
  | None | Some (JDict _) => false
  | Some _ => true
  end.

(** The level a status query reads for a channel: a sample of [[0.3, 0.9)]
    while the channel plays, exactly 0 otherwise. *)
Definition level_of (playing : bool) (x : pyfloat) : Prop :=
  if playing then in_range (Finite 0.3) (Finite 0.9) x = true else x = Finite 0.





(** A computation keeps a property of the dictionary, whether it returns or
    raises. *)
Definition preserves {A} (P : ServerState -> Prop) (c : M A) : Prop :=
  forall st, P (server_state st) -> P (server_state (fst (c st))).

(** ** Floats: order, clamping and products *)

Lemma Qltb_lt (x y : Q) : Qltb x y = true <-> (x < y)%Q.
Proof.
  unfold Qltb. destruct (Qcompare_spec x y); split; intros; try easy; lra.
Qed.

Lemma Qltb_ge (x y : Q) : Qltb x y = false <-> (y <= x)%Q.
Proof.
  unfold Qltb. destruct (Qcompare_spec x y); split; intros; try easy; lra.
Qed.

Lemma in_unit_finite (x : pyfloat) :
  in_unit x = true <-> exists q, x = Finite q /\ (0 <= q <= 1)%Q.
Proof.
  unfold in_unit. rewrite andb_true_iff. destruct x as [q| | |]; simpl.
  - rewrite !Qle_bool_iff. split.
    + intros H. exists q. tauto.
    + intros (q' & [= <-] & H). exact H.
  - split; [intros [_ [=]] | intros (q & [=] & _)].
  - split; [intros [[=] _] | intros (q & [=] & _)].
  - split; [intros [[=] _] | intros (q & [=] & _)].
Qed.

Lemma in_unit_intro (q : Q) : (0 <= q <= 1)%Q -> in_unit (Finite q) = true.
Proof. intros H. apply in_unit_finite. eauto. Qed.

(** The clamping expression of the handlers, [max(lo, min(hi, x))], against
    the clamp of the specification. *)
Lemma max_min_clamp (lo hi : Q) (x : pyfloat) :
  (lo < hi)%Q -> x <> NaN ->
  py_max (Finite lo) (py_min (Finite hi) x) = clamp x (Finite lo) (Finite hi).
Proof.
  intros Hlt Hnan. unfold py_max, py_min, clamp.
  assert (Hlh : Qltb lo hi = true) by now apply Qltb_lt.
  destruct x as [q| | |]; simpl; rewrite ?Hlh; try congruence.
  destruct (Qltb q hi) eqn:E1, (Qle_bool q lo) eqn:E2, (Qle_bool hi q) eqn:E3;
    simpl; rewrite ?Hlh;
    try (destruct (Qltb lo q) eqn:E4);
    rewrite ?Qltb_lt, ?Qltb_ge, ?Qle_bool_iff, <- ?not_true_iff_false,
      ?Qle_bool_iff in *;
    try reflexivity; exfalso; lra.
Qed.

(** nan is clamped to the upper bound: no comparison with it holds. *)
Lemma max_min_nan (lo hi : Q) :
  (lo < hi)%Q -> py_max (Finite lo) (py_min (Finite hi) NaN) = Finite hi.
Proof.
  intros Hlt. unfold py_max, py_min. simpl.
  now apply Qltb_lt in Hlt as ->.
Qed.

Lemma max_min_bounds (lo hi : Q) (x : pyfloat) :
  (lo < hi)%Q ->
  exists q, py_max (Finite lo) (py_min (Finite hi) x) = Finite q
            /\ (lo <= q <= hi)%Q.
Proof.
  intros Hlt. destruct x as [q| | |].
  - unfold py_max, py_min. simpl.
    destruct (Qltb q hi) eqn:E1; simpl.
    + destruct (Qltb lo q) eqn:E2.
      * exists q. rewrite Qltb_lt in *. split; [reflexivity | lra].
      * exists lo. split; [reflexivity | lra].
    + apply Qltb_lt in Hlt as Hlh. rewrite Hlh. exists hi.
      split; [reflexivity | lra].
  - rewrite max_min_clamp by (auto || discriminate). exists hi.
    split; [reflexivity | lra].
  - rewrite max_min_clamp by (auto || discriminate). exists lo.
    split; [reflexivity | lra].
  - rewrite max_min_nan by auto. exists hi. split; [reflexivity | lra].
Qed.

Lemma in_unit_max_min (x : pyfloat) :
  in_unit (py_max (Finite 0) (py_min (Finite 1) x)) = true.
Proof.
  destruct (max_min_bounds 0 1 x) as (q & -> & H); [lra|].
  now apply in_unit_intro.
Qed.

(** A percentage clamped to [[0, 100]] and divided by 100 lies in [[0, 1]]. *)
Lemma in_unit_percent (x g : pyfloat) :
  fdiv (py_max (Finite 0) (py_min (Finite 100) x)) (Finite 100) = Ok g ->
  in_unit g = true.
Proof.
  destruct (max_min_bounds 0 100 x) as (q & -> & H); [lra|].
  simpl. intros [= <-]. apply in_unit_intro. rewrite Qred_correct.
  split; [apply Qle_shift_div_l | apply Qle_shift_div_r]; lra.
Qed.

(** The division of the microphone branches never raises. *)
Lemma fdiv_100 (x : pyfloat) :
  exists g, fdiv (py_max (Finite 0) (py_min (Finite 100) x)) (Finite 100) = Ok g.
Proof.
  destruct (max_min_bounds 0 100 x) as (q & -> & H); [lra|].
  simpl. eauto.
Qed.

(** ** Rules for [preserves] *)

Section Preserves.
Context {A B : Type} (P : ServerState -> Prop).

Lemma preserves_ret (a : A) : preserves P (ret a).
Proof. intros st H. exact H. Qed.

Lemma preserves_raise (e : exn) : preserves P (@raise A e).
Proof. intros st H. exact H. Qed.

Lemma preserves_lift (r : result A) : preserves P (lift r).
Proof. intros st H. exact H. Qed.

Lemma preserves_bind (c : M A) (k : A -> M B) :
  preserves P c -> (forall a, preserves P (k a)) -> preserves P (bind c k).
Proof.
  intros Hc Hk st H. unfold bind. specialize (Hc st H).
  destruct (c st) as [st' [a|e]]; simpl in *.
  - now apply Hk.
  - exact Hc.
Qed.

(** After [lift r], the continuation only runs on what [r] returned. *)
Lemma preserves_bind_lift (r : result A) (k : A -> M B) :
  (forall a, r = Ok a -> preserves P (k a)) -> preserves P (bind (lift r) k).
Proof.
  intros Hk st H. unfold bind, lift. destruct r as [a|e]; simpl.
  - now apply Hk.
  - exact H.
Qed.

Lemma preserves_try_except (body handler : M A) (caught : exn -> bool) :
  preserves P body -> preserves P handler ->
  preserves P (try_except body caught handler).
Proof.
  intros Hb Hh st H. unfold try_except. specialize (Hb st H).
  destruct (body st) as [st' [a|e]]; simpl in *; [exact Hb|].
  destruct (caught e); [now apply Hh | exact Hb].
Qed.

Lemma preserves_if (b : bool) (c1 c2 : M A) :
  preserves P c1 -> preserves P c2 -> preserves P (if b then c1 else c2).
Proof. now destruct b. Qed.

Lemma preserves_index (l : list A) (i : nat) : preserves P (index l i).
Proof. unfold index. destruct (l !! i); intros st H; exact H. Qed.
End Preserves.

Section PreservesState.
Context (P : ServerState -> Prop).

Lemma preserves_get_state : preserves P get_state.
Proof. intros st H. exact H. Qed.

Lemma preserves_modify (f : ServerState -> ServerState) :
  (forall s, P s -> P (f s)) -> preserves P (modify f).
Proof. intros Hf st H. now apply Hf. Qed.

Lemma preserves_int (s : string) : preserves P (int s).
Proof. unfold int. destruct (py_int s); intros st H; exact H. Qed.

Lemma preserves_channel (i : nat) : preserves P (channel i).
Proof.
  apply preserves_bind; [apply preserves_get_state|].
  intros s. apply preserves_index.
Qed.

Lemma preserves_set_channel (i : nat) (f : Channel -> Channel) :
  (forall s, P s -> P (with_mixer (fun m => set_channels (alter f i (channels m)) m) s)) ->
  preserves P (set_channel i f).
Proof.
  intros Hf. apply preserves_bind; [apply preserves_channel|].
  intros _. now apply preserves_modify.
Qed.

Lemma preserves_send (d : json) (code : Z) : preserves P (send_json_response d code).
Proof. intros st H. exact H. Qed.

Lemma preserves_random (env : Env) : preserves P (random env).
Proof. intros st H. exact H. Qed.

Lemma preserves_uniform (env : Env) (a b : pyfloat) : preserves P (uniform env a b).
Proof.
  apply preserves_bind; [apply preserves_random|].
  intros r. apply preserves_ret.
Qed.

Lemma preserves_randint (env : Env) (a b : Z) : preserves P (randint env a b).
Proof. intros st H. exact H. Qed.

Lemma preserves_set_audio_level (key : string) (x : pyfloat) :
  (forall f s, P s -> P (with_audio_levels f s)) ->
  preserves P (set_audio_level key x).
Proof. intros Hf. apply preserves_modify. intros s. apply Hf. Qed.
End PreservesState.

(** ** The invariant under the assignments of the handlers *)

Lemma invariant_initial (now : Q) : invariant (initial_state now).
Proof.
  split; simpl; try reflexivity; repeat constructor.
Qed.

Lemma invariant_with_uptime (n : Z) (s : ServerState) :
  invariant s -> invariant (with_uptime n s).
Proof. intros [? ? ? ? ? ? ?]. split; assumption. Qed.

Lemma invariant_with_audio_levels (f : AudioLevels -> AudioLevels) (s : ServerState) :
  invariant s -> invariant (with_audio_levels f s).
Proof. intros [? ? ? ? ? ? ?]. split; assumption. Qed.

Lemma invariant_set_crossfader (x : pyfloat) (s : ServerState) :
  in_unit x = true -> invariant s -> invariant (with_mixer (set_crossfader x) s).
Proof. intros Hx [? ? ? ? ? ? ?]. split; assumption. Qed.

Lemma invariant_set_master_volume (x : pyfloat) (s : ServerState) :
  in_unit x = true -> invariant s -> invariant (with_mixer (set_master_volume x) s).
Proof. intros Hx [? ? ? ? ? ? ?]. split; assumption. Qed.

Lemma map_alter_same {A B} (g : A -> B) (f : A -> A) (i : nat) (l : list A) :
  (forall a, g (f a) = g a) -> map g (alter f i l) = map g l.
Proof.
  intros H. revert i. induction l as [|a l IH]; intros [|i]; simpl;
    try reflexivity.
  - cbn. now rewrite H.
  - cbn. f_equal. apply IH.
Qed.

(** An assignment to one key of one channel keeps the invariant when it
    keeps the identifier and the two bounds of that channel. *)
Lemma invariant_alter_channel (f : Channel -> Channel) (i : nat) (s : ServerState) :
  (forall c, ch_id (f c) = ch_id c) ->
  (forall c, in_unit (volume c) = true -> in_unit (volume (f c)) = true) ->
  (forall c, fle (Finite 0) (position c) = true ->
             fle (Finite 0) (position (f c)) = true) ->
  invariant s ->
  invariant (with_mixer (fun m => set_channels (alter f i (channels m)) m) s).
Proof.
  intros Hid Hvol Hpos [Hc Hm Hlen Hids Hv Hp Hg].
  split; unfold with_mixer, set_channels;
    cbn [mixer microphone crossfader master_volume channels].
  - exact Hc.
  - exact Hm.
  - now rewrite length_alter.
  - now rewrite map_alter_same.
  - apply Forall_alter; auto.
  - apply Forall_alter; auto.
  - exact Hg.
Qed.

Lemma invariant_set_gain (x : pyfloat) (s : ServerState) :
  in_unit x = true -> invariant s -> invariant (with_microphone (set_gain x) s).
Proof. intros Hx [? ? ? ? ? ? ?]. split; assumption. Qed.

Lemma invariant_set_enabled (f : Microphone -> bool) (s : ServerState) :
  invariant s -> invariant (with_microphone (fun m => set_enabled (f m) m) s).
Proof. intros [? ? ? ? ? ? ?]. split; assumption. Qed.

Lemma invariant_set_talkover (b : bool) (s : ServerState) :
  invariant s -> invariant (with_microphone (set_talkover b) s).
Proof. intros [? ? ? ? ? ? ?]. split; assumption. Qed.

(** ** Every handler keeps the invariant *)

Ltac preserves_step :=
  lazymatch goal with
  | |- preserves _ (bind (lift _) _) => apply preserves_bind_lift; intros ? ?
  | |- preserves _ (bind _ _) => apply preserves_bind; [|intros ?]
  | |- preserves _ (if _ then _ else _) => apply preserves_if
  | |- preserves _ (try_except _ _ _) => apply preserves_try_except
  | |- preserves _ (ret _) => apply preserves_ret
  | |- preserves _ (raise _) => apply preserves_raise
  | |- preserves _ (lift _) => apply preserves_lift
  | |- preserves _ (send_json_response _ _) => apply preserves_send
  | |- preserves _ get_state => apply preserves_get_state
  | |- preserves _ (index _ _) => apply preserves_index
  | |- preserves _ (int _) => apply preserves_int
  | |- preserves _ (channel _) => apply preserves_channel
  | |- preserves _ (uniform _ _ _) => apply preserves_uniform
  | |- preserves _ (randint _ _ _) => apply preserves_randint
  | |- preserves _ (set_audio_level _ _) =>
      apply preserves_set_audio_level; intros ? ?;
      apply invariant_with_audio_levels
  | |- preserves _ (set_channel _ _) =>
      apply preserves_set_channel; intros ? ?;
      apply invariant_alter_channel;
      [intros ?; try reflexivity; try (intros _; apply in_unit_max_min) ..|]
  | |- preserves _ (modify _) => apply preserves_modify; intros ? ?
  end.

Ltac preserves_auto :=
  cbv zeta; repeat preserves_step;
  eauto using invariant_with_uptime, invariant_set_crossfader,
    invariant_set_master_volume, invariant_set_gain, invariant_set_talkover,
    invariant_set_enabled, in_unit_max_min, in_unit_percent.

Lemma do_GET_8080_invariant (env : Env) (path : string) :
  preserves invariant (MockCppServer.do_GET env path).
Proof.
  unfold MockCppServer.do_GET. preserves_auto.
Qed.

Lemma do_POST_8080_invariant (py_str : json -> string) (env : Env)
  (path : string) (payload : option json) :
  preserves invariant (MockCppServer.do_POST py_str env path payload).
Proof.
  unfold MockCppServer.do_POST, MockCppServer.invalid_channel_id,
    MockCppServer.invalid_channel_id_in_path.
  preserves_auto.
Qed.

Lemma simulate_channel_levels_invariant (env : Env) (l : list Channel) (i : nat) :
  preserves invariant (StartMockServer8082.simulate_channel_levels env i l).
Proof.
  revert i. induction l as [|c l IH]; intros i; simpl.
  - apply preserves_ret.
  - apply preserves_bind; [preserves_auto | intros _; apply IH].
Qed.

Lemma simulate_audio_levels_invariant (env : Env) :
  preserves invariant (StartMockServer8082.simulate_audio_levels env).
Proof.
  unfold StartMockServer8082.simulate_audio_levels.
  repeat first [apply simulate_channel_levels_invariant | preserves_step].
Qed.

Lemma do_GET_8082_invariant (env : Env) (path : string) :
  preserves invariant (StartMockServer8082.do_GET env path).
Proof.
  unfold StartMockServer8082.do_GET.
  repeat first [apply simulate_audio_levels_invariant | preserves_step];
    eauto using invariant_with_uptime.
Qed.

Lemma do_POST_8082_invariant (path : string) (payload : option json) :
  preserves invariant (StartMockServer8082.do_POST path payload).
Proof.
  unfold StartMockServer8082.do_POST. preserves_auto.
Qed.

Lemma run_invariant (c : M reply) (s : ServerState) :
  preserves invariant c -> invariant s -> invariant (fst (run c s)).
Proof.
  intros Hc Hs. unfold run. specialize (Hc (mkStore s 0) Hs).
  destruct (c (mkStore s 0)) as [st [r|e]]; exact Hc.
Qed.

Lemma handle_8080_invariant (py_str : json -> string) (env : Env) (r : request)
  (s : ServerState) :
  invariant s -> invariant (fst (MockCppServer.handle py_str env r s)).
Proof.
  intros Hs. unfold MockCppServer.handle. destruct (req_method r).
  - apply run_invariant; [apply do_GET_8080_invariant | exact Hs].
  - apply run_invariant; [apply do_POST_8080_invariant | exact Hs].
  - exact Hs.
Qed.

Lemma handle_8082_invariant (env : Env) (r : request) (s : ServerState) :
  invariant s -> invariant (fst (StartMockServer8082.handle env r s)).
Proof.
  intros Hs. unfold StartMockServer8082.handle. destruct (req_method r).
  - apply run_invariant; [apply do_GET_8082_invariant | exact Hs].
  - apply run_invariant; [apply do_POST_8082_invariant | exact Hs].
  - exact Hs.
Qed.

Lemma serve_invariant handle (trace : list (Env * request)) (s : ServerState) :
  (forall env r s, invariant s -> invariant (fst (handle env r s))) ->
  invariant s -> invariant (serve handle trace s).
Proof.
  intros Hstep. revert s. induction trace as [|[env r] trace IH]; intros s Hs.
  - exact Hs.
  - simpl. apply IH. now apply Hstep.
Qed.

(** C1. From the initial state, after every sequence of requests to either
    server the crossfader, the master volume, both channel volumes and the
    microphone gain lie in [0,1], the channel list has exactly two entries
    with the identifiers 1 and 2, and no channel position is negative. *)
Theorem invariant_after_every_request (py_str : json -> string) (now : Q)
  (trace : list (Env * request)) :
  let s8080 := serve (MockCppServer.handle py_str) trace (initial_state now) in
  let s8082 := serve StartMockServer8082.handle trace (initial_state now) in
  (in_unit (crossfader (mixer s8080)) = true
   /\ in_unit (master_volume (mixer s8080)) = true
   /\ length (channels (mixer s8080)) = 2%nat
   /\ map ch_id (channels (mixer s8080)) = [1; 2]
   /\ Forall (fun c => in_unit (volume c) = true) (channels (mixer s8080))
   /\ Forall (fun c => fle (Finite 0) (position c) = true) (channels (mixer s8080))
   /\ in_unit (gain (microphone s8080)) = true)
  /\
  (in_unit (crossfader (mixer s8082)) = true
   /\ in_unit (master_volume (mixer s8082)) = true
   /\ length (channels (mixer s8082)) = 2%nat
   /\ map ch_id (channels (mixer s8082)) = [1; 2]
   /\ Forall (fun c => in_unit (volume c) = true) (channels (mixer s8082))
   /\ Forall (fun c => fle (Finite 0) (position c) = true) (channels (mixer s8082))
   /\ in_unit (gain (microphone s8082)) = true).
Proof.
  intros s8080 s8082.
  assert (H1 : invariant s8080).
  { apply serve_invariant; [apply handle_8080_invariant | apply invariant_initial]. }
  assert (H2 : invariant s8082).
  { apply serve_invariant; [apply handle_8082_invariant | apply invariant_initial]. }
  destruct H1, H2. repeat split; assumption.
Qed.

(** ** POST /api/mixer/crossfader *)

Lemma py_float_number (value : json) (v : pyfloat) :
  json_number value v -> py_float value = Ok v.
Proof.
  intros [n Hn|x Hx]; [|reflexivity].
  unfold py_float. now apply Z.ltb_lt in Hn as ->.
Qed.

Lemma json_number_not_nan (value : json) (v : pyfloat) :
  json_number value v -> v <> NaN.
Proof. intros [n Hn|x Hx]; [discriminate | exact Hx]. Qed.




(** ** The channel routes *)

Lemma channel_route_startswith (path suffix : string) :
  channel_route path suffix = true -> startswith path "/api/mixer/channel/" = true.
Proof. unfold channel_route. now intros [H _]%andb_true_iff. Qed.

Lemma channel_route_not_crossfader (path suffix : string) :
  channel_route path suffix = true ->
  String.eqb path "/api/mixer/crossfader" = false.
Proof.
  intros H%channel_route_startswith.
  destruct (String.eqb_spec path "/api/mixer/crossfader") as [->|]; [|reflexivity].
  discriminate H.
Qed.

Lemma prefix_head (a : ascii) (p s : string) :
  String.prefix (String a p) s = true -> exists s', s = String a s'.
Proof.
  destruct s as [|c s']; cbn [String.prefix]; [discriminate|].
  destruct (ascii_dec a c) as [<-|]; [eauto | discriminate].
Qed.

(** Two suffixes whose last characters differ cannot both end a path. *)
Lemma endswith_load_not_volume (path : string) :
  endswith path "/load" = true -> endswith path "/volume" = false.
Proof. unfold endswith. intros [r ->]%prefix_head. reflexivity. Qed.

Lemma endswith_playback_not_volume (path : string) :
  endswith path "/playback" = true -> endswith path "/volume" = false.
Proof. unfold endswith. intros [r ->]%prefix_head. reflexivity. Qed.

Lemma endswith_playback_not_load (path : string) :
  endswith path "/playback" = true -> endswith path "/load" = false.
Proof. unfold endswith. intros [r ->]%prefix_head. reflexivity. Qed.

(** The three channel branches start alike: [parts[4]], then [int]. *)
Lemma addressed_channel_some (path : string) (n : Z) {A} (k : Z -> M A) :
  addressed_channel path = Some n ->
  bind (index (split "/" path) 4) (fun segment => bind (int segment) k) = k n.
Proof.
  unfold addressed_channel, index, int. intros H.
  destruct (split "/" path !! 4%nat) as [segment|]; [|discriminate].
  unfold bind, ret. cbn. rewrite H. reflexivity.
Qed.

Lemma addressed_channel_none (path : string) {A} (k : Z -> M A) (st : Store) :
  addressed_channel path = None ->
  exists e, bind (index (split "/" path) 4) (fun segment => bind (int segment) k) st
            = (st, Raise e)
            /\ ValueError_or_IndexError e = true.
Proof.
  unfold addressed_channel, index, int. intros H.
  destruct (split "/" path !! 4%nat) as [segment|].
  - unfold bind, ret. cbn. rewrite H. exists ValueError. split; reflexivity.
  - exists IndexError. split; reflexivity.
Qed.

(** The volume branch of [do_POST], once the route is known. *)
Lemma do_POST_volume (py_str : json -> string) (env : Env) (path : string)
  (payload : option json) (n : Z) :
  channel_route path "/volume" = true ->
  addressed_channel path = Some n ->
  MockCppServer.do_POST py_str env path payload
  = try_except
      (let channel_id := n - 1 in
       if (0 <=? channel_id)%Z && (channel_id <? 2)%Z then
         (value <- lift (dict_get (read_body payload) "value" (JFloat (Finite 0.7))) ;;
          x <- lift (py_float value) ;;
          set_channel (Z.to_nat channel_id)
            (set_volume (py_max (Finite 0) (py_min (Finite 1) x))) ;;
          c <- channel (Z.to_nat channel_id) ;;
          send_json_response
            (JDict [("success", JBool true);
                    ("action", JStr "channel_volume_set");
                    ("channel", JInt (channel_id + 1));
                    ("value", JFloat (volume c))]) 200)%monad
       else MockCppServer.invalid_channel_id)
      ValueError_or_IndexError
      MockCppServer.invalid_channel_id_in_path.
Proof.
  intros Hroute Haddr. unfold MockCppServer.do_POST. cbv zeta.
  rewrite (channel_route_not_crossfader _ _ Hroute).
  fold (channel_route path "/volume"). rewrite Hroute.
  now rewrite (addressed_channel_some _ _ _ Haddr).
Qed.




(** ** POST /api/mixer/channel/{id}/volume *)

(** With the identifier 1 or 2 and the addressed channel present, the
    channel list opens up to that channel. *)
Ltac open_channel Hid Hc chans :=
  destruct Hid as [-> | ->];
  [ destruct chans as [|? chans]; [discriminate Hc|]
  | destruct chans as [|? [|? chans]]; try discriminate Hc ];
  injection Hc as ->.




(** ** Channel identifiers outside {1, 2} *)

Lemma invalid_channel_branch (path : string) (k : Z -> M reply) (st : Store) :
  addressed_channel path = None
  \/ (exists n, addressed_channel path = Some n /\ n <> 1 /\ n <> 2) ->
  exists message,
    try_except
      (segment <- index (split "/" path) 4 ;;
       n <- int segment ;;
       if (0 <=? n - 1)%Z && (n - 1 <? 2)%Z then k n
       else MockCppServer.invalid_channel_id)
      ValueError_or_IndexError
      MockCppServer.invalid_channel_id_in_path st
    = (st, Ok (mkReply 400 (JDict [("success", JBool false);
                                   ("error", JStr message)]))).
Proof.
  intros [Hnone | (n & Hsome & Hn1 & Hn2)].
  - destruct (addressed_channel_none path
                (fun n => if (0 <=? n - 1)%Z && (n - 1 <? 2)%Z then k n
                          else MockCppServer.invalid_channel_id) st Hnone)
      as (e & He & Hcaught).
    unfold try_except. rewrite He, Hcaught. eexists. reflexivity.
  - rewrite (addressed_channel_some path n
               (fun n => if (0 <=? n - 1)%Z && (n - 1 <? 2)%Z then k n
                         else MockCppServer.invalid_channel_id) Hsome).
    replace ((0 <=? n - 1)%Z && (n - 1 <? 2)%Z) with false.
    + eexists. reflexivity.
    + symmetry. apply andb_false_iff.
      destruct (Z.leb_spec 0 (n - 1)); [right | left; reflexivity].
      apply Z.ltb_ge. lia.
Qed.

Lemma run_invalid_channel (path : string) (k : Z -> M reply) (s : ServerState) :
  addressed_channel path = None
  \/ (exists n, addressed_channel path = Some n /\ n <> 1 /\ n <> 2) ->
  exists message,
    run (try_except
           (segment <- index (split "/" path) 4 ;;
            n <- int segment ;;
            if (0 <=? n - 1)%Z && (n - 1 <? 2)%Z then k n
            else MockCppServer.invalid_channel_id)
           ValueError_or_IndexError
           MockCppServer.invalid_channel_id_in_path) s
    = (s, Reply 400 (JDict [("success", JBool false); ("error", JStr message)])).
Proof.
  intros Hbad.
  destruct (invalid_channel_branch path k (mkStore s 0) Hbad) as (message & H).
  exists message. unfold run. rewrite H. reflexivity.
Qed.

(** C5. On the three channel routes of the port-8080 server, a channel
    segment that [int] rejects, or that denotes an integer other than 1 and
    2, is answered with status 400, success false and an error message, and
    the state is unchanged; so it is for the identifiers 0, 3 and 9. *)
Theorem invalid_channel_rejected (py_str : json -> string) (env : Env)
  (s : ServerState) (path : string) (payload : option json) :
  channel_route path "/volume" || channel_route path "/load"
  || channel_route path "/playback" = true ->
  addressed_channel path = None
  \/ (exists n, addressed_channel path = Some n /\ n <> 1 /\ n <> 2) ->
  (exists message,
     MockCppServer.handle py_str env (mkRequest POST path payload) s
     = (s, Reply 400 (JDict [("success", JBool false); ("error", JStr message)])))
  /\ Forall
       (fun p =>
          MockCppServer.handle py_str env (mkRequest POST p payload) s
          = (s, Reply 400 (JDict [("success", JBool false);
                                  ("error", JStr "Invalid channel ID")])))
       ["/api/mixer/channel/0/volume"; "/api/mixer/channel/3/volume";
        "/api/mixer/channel/9/volume"; "/api/mixer/channel/0/load";
        "/api/mixer/channel/3/load"; "/api/mixer/channel/9/load";
        "/api/mixer/channel/0/playback"; "/api/mixer/channel/3/playback";
        "/api/mixer/channel/9/playback"].
Proof.
  intros Hroute Hbad. split.
  - unfold MockCppServer.handle. cbn [req_method req_path req_body].
    unfold MockCppServer.do_POST. cbv zeta.
    assert (Hprefix : startswith path "/api/mixer/channel/" = true).
    { unfold channel_route in Hroute.
      destruct (startswith path "/api/mixer/channel/"); [reflexivity | discriminate]. }
    assert (Hx : String.eqb path "/api/mixer/crossfader" = false).
    { destruct (String.eqb_spec path "/api/mixer/crossfader") as [->|];
        [discriminate Hprefix | reflexivity]. }
    rewrite Hx. unfold channel_route in Hroute. rewrite Hprefix in *. cbn [andb] in *.
    destruct (endswith path "/volume");
      [|destruct (endswith path "/load");
        [|destruct (endswith path "/playback"); [|discriminate Hroute]]];
      apply run_invalid_channel; exact Hbad.
  - repeat constructor.
Qed.

Lemma invalid_channel_rejected_witness :
  exists message,
    MockCppServer.handle (fun _ => "") env0
      (mkRequest POST "/api/mixer/channel/seven/load" None) (initial_state 0)
    = (initial_state 0,
       Reply 400 (JDict [("success", JBool false); ("error", JStr message)])).
Proof.
  exact (proj1 (invalid_channel_rejected (fun _ => "") env0 (initial_state 0)
                  "/api/mixer/channel/seven/load" None eq_refl
                  (or_introl eq_refl))).
Defined.

(** ** POST /api/mixer/channel/{id}/playback *)

(** The playback branch of [do_POST], once the route is known. *)
Lemma do_POST_playback (py_str : json -> string) (env : Env) (path : string)
  (payload : option json) (n : Z) :
  channel_route path "/playback" = true ->
  addressed_channel path = Some n ->
  MockCppServer.do_POST py_str env path payload
  = try_except
      (let channel_id := n - 1 in
       if (0 <=? channel_id)%Z && (channel_id <? 2)%Z then
         (action <- lift (dict_get (read_body payload) "action" (JStr "play")) ;;
          (if equals_str action "play" then
             set_channel (Z.to_nat channel_id) (set_is_playing true)
           else if equals_str action "pause" then
             set_channel (Z.to_nat channel_id) (set_is_playing false)
           else if equals_str action "stop" then
             set_channel (Z.to_nat channel_id) (set_is_playing false) ;;
             set_channel (Z.to_nat channel_id) (set_position (Finite 0))
           else ret tt) ;;
          c <- channel (Z.to_nat channel_id) ;;
          send_json_response
            (JDict [("success", JBool true);
                    ("action",
                     JStr ("playback_" ++ MockCppServer.format_value py_str action));
                    ("channel", JInt (channel_id + 1));
                    ("is_playing", JBool (is_playing c))]) 200)%monad
       else MockCppServer.invalid_channel_id)
      ValueError_or_IndexError
      MockCppServer.invalid_channel_id_in_path.
Proof.
  intros Hroute Haddr. unfold MockCppServer.do_POST. cbv zeta.
  rewrite (channel_route_not_crossfader _ _ Hroute).
  pose proof Hroute as [Hprefix Hsuffix]%andb_true_iff.
  rewrite Hprefix, (endswith_playback_not_volume _ Hsuffix),
    (endswith_playback_not_load _ Hsuffix), Hsuffix. cbn [andb].
  now rewrite (addressed_channel_some _ _ _ Haddr).
Qed.

(** C6. For a channel id of 1 or 2 and whatever that channel held before,
    POST /api/mixer/channel/{id}/playback with the action stop leaves the
    channel not playing at position 0, and with the action pause leaves it
    not playing at the position it had. *)
Theorem playback_stop_and_pause (py_str : json -> string) (env : Env)
  (s : ServerState) (path : string) (id : Z) (c : Channel) :
  channel_route path "/playback" = true ->
  addressed_channel path = Some id ->
  id = 1 \/ id = 2 ->
  channels (mixer s) !! Z.to_nat (id - 1) = Some c ->
  let after kv := fst (MockCppServer.handle py_str env (post path (JDict kv)) s) in
  (forall kv, assoc "action" kv = Some (JStr "stop") ->
     exists c', channels (mixer (after kv)) !! Z.to_nat (id - 1) = Some c'
                /\ is_playing c' = false /\ position c' = Finite 0)
  /\ (forall kv, assoc "action" kv = Some (JStr "pause") ->
        exists c', channels (mixer (after kv)) !! Z.to_nat (id - 1) = Some c'
                   /\ is_playing c' = false /\ position c' = position c).
Proof.
  intros Hroute Haddr Hid Hc after. subst after.
  split; intros kv Hkv;
    unfold MockCppServer.handle, run, post; cbn [req_method req_path req_body];
    rewrite (do_POST_playback _ _ _ _ _ Hroute Haddr);
    destruct s as [st0 up t0 [cf mv chans] mic lv];
    cbn [mixer channels] in Hc |- *;
    open_channel Hid Hc chans;
    unfold try_except, bind at 1, lift; cbn [read_body dict_get];
    rewrite Hkv; eexists; (split; [reflexivity | split; reflexivity]).
Qed.

Lemma playback_stop_and_pause_witness :
  let s := fst (MockCppServer.handle (fun _ => "") env0
                  (post "/api/mixer/channel/1/playback"
                     (JDict [("action", JStr "play")])) (initial_state 0)) in
  let after kv :=
    fst (MockCppServer.handle (fun _ => "") env0
           (post "/api/mixer/channel/1/playback" (JDict kv)) s) in
  (forall kv, assoc "action" kv = Some (JStr "stop") ->
     exists c', channels (mixer (after kv)) !! 0%nat = Some c'
                /\ is_playing c' = false /\ position c' = Finite 0)
  /\ (forall kv, assoc "action" kv = Some (JStr "pause") ->
        exists c', channels (mixer (after kv)) !! 0%nat = Some c'
                   /\ is_playing c' = false /\ position c' = Finite 0).
Proof.
  intros s.
  exact (playback_stop_and_pause (fun _ => "") env0 s
           "/api/mixer/channel/1/playback" 1
           (set_is_playing true (initial_channel 1))
           eq_refl eq_refl (or_introl eq_refl) eq_refl).
Defined.

(** C7. For a channel id of 1 or 2 and an action string other than play,
    pause and stop, POST /api/mixer/channel/{id}/playback leaves the whole
    state unchanged and still answers 200 with success true, the action
    playback_<action>, the channel id and the is_playing flag the channel
    has. *)
Theorem playback_unknown_action_echoed (py_str : json -> string) (env : Env)
  (s : ServerState) (path : string) (id : Z) (c : Channel)
  (kv : list (string * json)) (action : string) :
  channel_route path "/playback" = true ->
  addressed_channel path = Some id ->
  id = 1 \/ id = 2 ->
  channels (mixer s) !! Z.to_nat (id - 1) = Some c ->
  assoc "action" kv = Some (JStr action) ->
  action <> "play" -> action <> "pause" -> action <> "stop" ->
  MockCppServer.handle py_str env (post path (JDict kv)) s
  = (s, Reply 200 (JDict [("success", JBool true);
                          ("action", JStr ("playback_" ++ action));
                          ("channel", JInt id);
                          ("is_playing", JBool (is_playing c))])).
Proof.
  intros Hroute Haddr Hid Hc Hkv Hplay%String.eqb_neq Hpause%String.eqb_neq
    Hstop%String.eqb_neq.
  unfold MockCppServer.handle, run, post. cbn [req_method req_path req_body].
  rewrite (do_POST_playback _ _ _ _ _ Hroute Haddr).
  destruct s as [st0 up t0 [cf mv chans] mic lv].
  cbn [mixer channels] in Hc |- *.
  open_channel Hid Hc chans;
    unfold try_except, bind at 1, lift; cbn [read_body dict_get];
    rewrite Hkv; cbn; unfold bind at 1; cbn [equals_str];
    rewrite Hplay, Hpause, Hstop; reflexivity.
Qed.

Lemma playback_unknown_action_echoed_witness :
  MockCppServer.handle (fun _ => "") env0
    (post "/api/mixer/channel/2/playback" (JDict [("action", JStr "rewind")]))
    (initial_state 0)
  = (initial_state 0,
     Reply 200 (JDict [("success", JBool true);
                       ("action", JStr "playback_rewind");
                       ("channel", JInt 2);
                       ("is_playing", JBool false)])).
Proof.
  apply (playback_unknown_action_echoed (fun _ => "") env0 (initial_state 0)
           "/api/mixer/channel/2/playback" 2 (initial_channel 2)
           [("action", JStr "rewind")] "rewind");
    first [reflexivity | right; reflexivity | discriminate].
Defined.

(** ** A volume that [float] rejects *)

(** C10, as the code has it.  For a channel id of 1 or 2, a volume request
    whose value is a string that [float] rejects is answered with status 400,
    success false and the message of the channel-id parse error, "Invalid
    channel ID in path", and the state is unchanged. *)
Theorem volume_string_rejected (py_str : json -> string) (env : Env)
  (s : ServerState) (path : string) (id : Z) (kv : list (string * json))
  (text : string) :
  channel_route path "/volume" = true ->
  addressed_channel path = Some id ->
  id = 1 \/ id = 2 ->
  assoc "value" kv = Some (JStr text) ->
  py_float_of_str text = None ->
  MockCppServer.handle py_str env (post path (JDict kv)) s
  = (s, Reply 400 (JDict [("success", JBool false);
                          ("error", JStr "Invalid channel ID in path")])).
Proof.
  intros Hroute Haddr Hid Hkv Htext.
  unfold MockCppServer.handle, run, post. cbn [req_method req_path req_body].
  rewrite (do_POST_volume _ _ _ _ _ Hroute Haddr). cbv zeta.
  replace ((0 <=? id - 1)%Z && (id - 1 <? 2)%Z) with true by (destruct Hid; now subst).
  unfold try_except, bind at 1, lift. cbn [read_body dict_get]. rewrite Hkv.
  unfold bind at 1. cbn [py_float]. rewrite Htext. reflexivity.
Qed.

Lemma volume_string_rejected_witness :
  MockCppServer.handle (fun _ => "") env0
    (post "/api/mixer/channel/1/volume" (JDict [("value", JStr "loud")]))
    (initial_state 0)
  = (initial_state 0,
     Reply 400 (JDict [("success", JBool false);
                       ("error", JStr "Invalid channel ID in path")])).
Proof.
  exact (volume_string_rejected (fun _ => "") env0 (initial_state 0)
           "/api/mixer/channel/1/volume" 1 [("value", JStr "loud")] "loud"
           eq_refl eq_refl (or_introl eq_refl) eq_refl eq_refl).
Defined.

(** Against C10 as stated: a value that is no string and no number is not
    convertible either, but
    [float] raises [TypeError] for it, which the [except] clause of the
    branch does not name: the handler ends without a response. *)
Lemma volume_null_not_answered :
  py_float JNull = Raise TypeError
  /\ MockCppServer.handle (fun _ => "") env0
       (post "/api/mixer/channel/1/volume" (JDict [("value", JNull)]))
       (initial_state 0)
     = (initial_state 0, Died TypeError)
  /\ MockCppServer.handle (fun _ => "") env0
       (post "/api/mixer/channel/1/volume" (JDict [("value", JNull)]))
       (initial_state 0)
     <> (initial_state 0,
         Reply 400 (JDict [("success", JBool false);
                           ("error", JStr "Invalid channel ID in path")])).
Proof.
  split; [reflexivity | split; [reflexivity | discriminate]].
Qed.

(** ** The microphone of the port-8082 server *)




(** ** The [success] field of the responses *)

Section Returns.
Context (Q : reply -> Prop).

Lemma returns_bind {A} (c : M A) (k : A -> M reply) :
  (forall a, returns Q (k a)) -> returns Q (bind c k).
Proof.
  intros Hk st. unfold bind. destruct (c st) as [st' [a|e]]; [apply Hk | exact I].
Qed.

Lemma returns_if (b : bool) (c1 c2 : M reply) :
  returns Q c1 -> returns Q c2 -> returns Q (if b then c1 else c2).
Proof. now destruct b. Qed.

Lemma returns_try_except (body handler : M reply) (caught : exn -> bool) :
  returns Q body -> returns Q handler -> returns Q (try_except body caught handler).
Proof.
  intros Hb Hh st. unfold try_except. specialize (Hb st).
  destruct (body st) as [st' [r|e]]; [exact Hb|].
  destruct (caught e); [apply Hh | exact I].
Qed.

Lemma returns_send (d : json) (code : Z) :
  Q (mkReply code d) -> returns Q (send_json_response d code).
Proof. intros H st. exact H. Qed.
End Returns.

Ltac returns_auto :=
  repeat first
    [ apply returns_send; reflexivity
    | apply returns_if
    | apply returns_try_except
    | apply returns_bind; intros ? ].

Lemma run_returns (Q : reply -> Prop) (c : M reply) (s : ServerState) :
  returns Q c ->
  match snd (run c s) with
  | Reply code d => Q (mkReply code d)
  | _ => True
  end.
Proof.
  intros H. unfold run. specialize (H (mkStore s 0)).
  destruct (c (mkStore s 0)) as [st [[code d]|e]]; [exact H | exact I].
Qed.

Lemma success_8080 (py_str : json -> string) (env : Env) (r : request)
  (s : ServerState) :
  success_field_as_coded r (snd (MockCppServer.handle py_str env r s)) = true.
Proof.
  unfold success_field_as_coded, is_health, MockCppServer.handle.
  destruct (req_method r).
  - pose proof (run_returns
        (fun x => (if String.eqb (req_path r) "/api/health"
                   then match json_field "success" (data x) with
                        | None => true
                        | Some _ => false
                        end
                   else has_success (data x)) = true)
        (MockCppServer.do_GET env (req_path r)) s) as H.
    destruct (snd (run (MockCppServer.do_GET env (req_path r)) s));
      try reflexivity.
    apply H. unfold MockCppServer.do_GET.
    destruct (String.eqb (req_path r) "/api/health"); returns_auto.
  - pose proof (run_returns (fun x => has_success (data x) = true)
        (MockCppServer.do_POST py_str env (req_path r) (req_body r)) s) as H.
    destruct (snd (run (MockCppServer.do_POST py_str env (req_path r) (req_body r)) s));
      try reflexivity.
    apply H. unfold MockCppServer.do_POST, MockCppServer.invalid_channel_id,
      MockCppServer.invalid_channel_id_in_path. cbv zeta. returns_auto.
  - reflexivity.
Qed.

Lemma success_8082 (env : Env) (r : request) (s : ServerState) :
  success_field_as_coded r (snd (StartMockServer8082.handle env r s)) = true.
Proof.
  unfold success_field_as_coded, is_health, StartMockServer8082.handle.
  destruct (req_method r).
  - pose proof (run_returns
        (fun x => (if String.eqb (req_path r) "/api/health"
                   then match json_field "success" (data x) with
                        | None => true
                        | Some _ => false
                        end
                   else has_success (data x)) = true)
        (StartMockServer8082.do_GET env (req_path r)) s) as H.
    destruct (snd (run (StartMockServer8082.do_GET env (req_path r)) s));
      try reflexivity.
    apply H. unfold StartMockServer8082.do_GET.
    destruct (String.eqb (req_path r) "/api/health"); returns_auto.
  - pose proof (run_returns (fun x => has_success (data x) = true)
        (StartMockServer8082.do_POST (req_path r) (req_body r)) s) as H.
    destruct (snd (run (StartMockServer8082.do_POST (req_path r) (req_body r)) s));
      try reflexivity.
    apply H. unfold StartMockServer8082.do_POST. cbv zeta. returns_auto.
  - reflexivity.
Qed.

(** C9, as the code has it.  Every JSON response of either server carries a
    field success that is true or false, except the response to
    GET /api/health, which carries none. *)
Theorem success_field_except_health (py_str : json -> string) (env : Env)
  (r : request) (s : ServerState) :
  success_field_as_coded r (snd (MockCppServer.handle py_str env r s)) = true
  /\ success_field_as_coded r (snd (StartMockServer8082.handle env r s)) = true.
Proof. split; [apply success_8080 | apply success_8082]. Qed.

(** Against C9 as stated: the response to GET /api/health of either server
    has no field success. *)
Lemma health_lacks_success :
  (exists d, snd (MockCppServer.handle (fun _ => "") env0 (get "/api/health")
                    (initial_state 0)) = Reply 200 d
             /\ json_field "status" d = Some (JStr "ok")
             /\ json_field "success" d = None
             /\ has_success d = false)
  /\ (exists d, snd (StartMockServer8082.handle env0 (get "/api/health")
                       (initial_state 0)) = Reply 200 d
                /\ json_field "status" d = Some (JStr "ok")
                /\ json_field "success" d = None
                /\ has_success d = false).
Proof.
  split; eexists; (split; [reflexivity | repeat split]).
Qed.

(** ** The level simulation *)

Lemma in_unit_fmul (a b : pyfloat) :
  in_unit a = true -> in_unit b = true -> in_unit (fmul a b) = true.
Proof.
  intros (p & -> & Hp)%in_unit_finite (q & -> & Hq)%in_unit_finite.
  apply in_unit_intro. rewrite Qred_correct. split; nra.
Qed.

Lemma in_unit_complement (a : pyfloat) :
  in_unit a = true -> in_unit (fsub (Finite 1) a) = true.
Proof.
  intros (p & -> & Hp)%in_unit_finite.
  apply in_unit_intro. rewrite !Qred_correct. split; lra.
Qed.

Lemma in_unit_py_max (a b : pyfloat) :
  in_unit a = true -> in_unit b = true -> in_unit (py_max a b) = true.
Proof. intros Ha Hb. unfold py_max. now destruct (flt a b). Qed.

Lemma in_unit_uniform (lo hi r : Q) :
  (0 <= lo)%Q -> (lo <= hi)%Q -> (hi <= 1)%Q -> (0 <= r < 1)%Q ->
  in_unit (fadd (Finite lo) (fmul (fsub (Finite hi) (Finite lo)) (Finite r))) = true.
Proof.
  intros Hlo Hle Hhi Hr. apply in_unit_intro. rewrite !Qred_correct. split; nra.
Qed.

(** Scaling by the master volume commutes with the maximum. *)
Lemma py_max_scaled (a b m : pyfloat) :
  in_unit a = true -> in_unit b = true -> in_unit m = true ->
  fle (py_max (fmul a m) (fmul b m)) (fmul m (py_max a b)) = true.
Proof.
  intros (p & -> & Hp)%in_unit_finite (q & -> & Hq)%in_unit_finite
    (r & -> & Hr)%in_unit_finite.
  unfold py_max. simpl.
  destruct (Qltb (Qred (p * r)) (Qred (q * r))) eqn:E1, (Qltb p q) eqn:E2;
    apply Qle_bool_iff;
    rewrite ?Qltb_lt, ?Qltb_ge, ?Qred_correct in *; nra.
Qed.

Lemma fmul_le_master (a m : pyfloat) :
  in_unit a = true -> in_unit m = true -> fle (fmul a m) m = true.
Proof.
  intros (p & -> & Hp)%in_unit_finite (r & -> & Hr)%in_unit_finite.
  simpl. apply Qle_bool_iff. rewrite Qred_correct. nra.
Qed.

Lemma fmul_comm_le (a m : pyfloat) :
  in_unit a = true -> in_unit m = true -> fle (fmul a m) (fmul m a) = true.
Proof.
  intros (p & -> & Hp)%in_unit_finite (r & -> & Hr)%in_unit_finite.
  simpl. apply Qle_bool_iff. rewrite !Qred_correct. nra.
Qed.

Lemma in_unit_sample (env : Env) (lo hi : Q) (i : nat) :
  random_in_range env -> (0 <= lo)%Q -> (lo <= hi)%Q -> (hi <= 1)%Q ->
  in_unit (fadd (Finite lo)
             (fmul (fsub (Finite hi) (Finite lo)) (Finite (random_draw env i))))
  = true.
Proof. intros Hrand Hlo Hle Hhi. apply in_unit_uniform; auto. Qed.

Lemma py_max_le_master (a b m : pyfloat) :
  in_unit a = true -> in_unit b = true -> in_unit m = true ->
  fle (py_max (fmul a m) (fmul b m)) m = true.
Proof.
  intros Ha Hb Hm. unfold py_max.
  destruct (flt (fmul a m) (fmul b m)); now apply fmul_le_master.
Qed.

Create HintDb levels.
#[local] Hint Resolve in_unit_py_max in_unit_fmul in_unit_complement : levels.

(** GET /api/mixer/status on the port-8080 server. *)
Lemma status_8080 (py_str : json -> string) (env : Env) (s : ServerState) :
  invariant s -> random_in_range env ->
  let s' := fst (MockCppServer.handle py_str env (get "/api/mixer/status") s) in
  mixer s' = mixer s
  /\ crossfaded_master s' = Some (master_left (audio_levels s'))
  /\ master_right (audio_levels s') = master_left (audio_levels s')
  /\ levels_in_unit false (audio_levels s') = true
  /\ (exists k, crossfaded_contribution s' = Some k
                /\ fle (master_left (audio_levels s'))
                     (fmul (master_volume (mixer s')) k) = true)
  /\ fle (master_left (audio_levels s')) (master_volume (mixer s')) = true.
Proof.
  intros [Hc Hm Hlen Hids Hv Hp Hg] Hrand s'.
  destruct s as [st0 up t0 [cf mv chans] mic lv].
  cbn [mixer crossfader master_volume channels microphone] in *.
  destruct chans as [|c1 [|c2 [|? ?]]]; try discriminate Hlen.
  inversion Hv as [|? ? Hv1 Hv']; inversion Hv' as [|? ? Hv2 _]; subst.
  destruct c1 as [i1 v1 t1 p1 pos1 e1], c2 as [i2 v2 t2 p2 pos2 e2].
  cbn [volume] in Hv1, Hv2. destruct lv. subst s'.
  clear Hlen Hids Hv Hp Hv' Hg.
  assert (H0 : in_unit (Finite 0) = true) by reflexivity.
  assert (Hu : forall i,
             in_unit (fadd (Finite 0.3)
                        (fmul (fsub (Finite 0.9) (Finite 0.3))
                           (Finite (random_draw env i)))) = true)
    by (intros i; apply in_unit_sample; [exact Hrand | lra ..]).
  destruct p1, p2; cbn -[fmul fsub fadd py_max in_unit fle Qtruncate];
    (split; [reflexivity|]); (split; [reflexivity|]); (split; [reflexivity|]);
    (split; [|split]).
  all: try (unfold levels_in_unit;
            cbn -[fmul fsub fadd py_max in_unit fle];
            rewrite !andb_true_iff; repeat split; auto 8 with levels).
  all: try (eexists; split; [reflexivity|]; unfold contribution;
            apply py_max_scaled; auto 8 with levels).
  all: apply py_max_le_master; auto 8 with levels.
Qed.

Lemma in_unit_py_max3 (a b c : pyfloat) :
  in_unit a = true -> in_unit b = true -> in_unit c = true ->
  in_unit (py_max3 a b c) = true.
Proof. intros Ha Hb Hc. unfold py_max3. auto with levels. Qed.

#[local] Hint Resolve in_unit_py_max3 : levels.

(** GET /api/mixer/status on the port-8082 server. *)
Lemma status_8082 (env : Env) (s : ServerState) :
  invariant s -> random_in_range env ->
  let s' := fst (StartMockServer8082.handle env (get "/api/mixer/status") s) in
  mixer s' = mixer s
  /\ (exists k, simplified_contribution s' = Some k
                /\ master_left (audio_levels s')
                   = fmul k (master_volume (mixer s'))
                /\ fle (master_left (audio_levels s'))
                     (fmul (master_volume (mixer s')) k) = true)
  /\ master_right (audio_levels s') = master_left (audio_levels s')
  /\ levels_in_unit true (audio_levels s') = true
  /\ fle (master_left (audio_levels s')) (master_volume (mixer s')) = true.
Proof.
  intros [Hc Hm Hlen Hids Hv Hp Hg] Hrand s'.
  destruct s as [st0 up t0 [cf mv chans] [on muted0 g talk] lv].
  cbn [mixer crossfader master_volume channels microphone gain] in *.
  destruct chans as [|c1 [|c2 [|? ?]]]; try discriminate Hlen.
  inversion Hv as [|? ? Hv1 Hv']; inversion Hv' as [|? ? Hv2 _]; subst.
  destruct c1 as [i1 v1 t1 p1 pos1 e1], c2 as [i2 v2 t2 p2 pos2 e2].
  cbn [volume] in Hv1, Hv2. destruct lv. subst s'.
  clear Hlen Hids Hv Hp Hv'.
  assert (H0 : in_unit (Finite 0) = true) by reflexivity.
  assert (Hu : forall i,
             in_unit (fadd (Finite 0.3)
                        (fmul (fsub (Finite 0.9) (Finite 0.3))
                           (Finite (random_draw env i)))) = true)
    by (intros i; apply in_unit_sample; [exact Hrand | lra ..]).
  assert (Hw : forall i,
             in_unit (fadd (Finite 0.3)
                        (fmul (fsub (Finite 0.8) (Finite 0.3))
                           (Finite (random_draw env i)))) = true)
    by (intros i; apply in_unit_sample; [exact Hrand | lra ..]).
  destruct on, p1, p2;
    lazy -[fmul fsub fadd py_max3 in_unit fle Qtruncate Qminus andb];
    (split; [reflexivity|]); (split; [|split; [reflexivity|split]]).
  all: try (eexists; split; [reflexivity|]; split; [reflexivity|];
            apply fmul_comm_le; auto 8 with levels).
  all: try (rewrite !andb_true_iff; repeat split; auto 8 with levels).
  all: apply fmul_le_master; auto 8 with levels.
Qed.

(** C2, as the code has it.  In every state that satisfies the invariants of
    the data model and for every run of the random source, GET
    /api/mixer/status leaves the mixer as it is and
    - on the port-8080 server sets both master levels to the maximum of the
      two weighted channel outputs, level x volume x (1 - crossfader) x
      master volume for channel 1 and level x volume x crossfader x master
      volume for channel 2;
    - on the port-8082 server sets both master levels to the largest of
      level x volume of channel 1, level x volume of channel 2 and the
      microphone level, times the master volume, without the crossfader;
    and on both servers every computed level lies in [0,1] and the master
    level exceeds neither the master volume times the largest contribution
    nor the master volume itself. *)
Theorem level_simulation_per_server (py_str : json -> string) (env : Env)
  (s : ServerState) :
  invariant s -> random_in_range env ->
  (let s' := fst (MockCppServer.handle py_str env (get "/api/mixer/status") s) in
   mixer s' = mixer s
   /\ crossfaded_master s' = Some (master_left (audio_levels s'))
   /\ master_right (audio_levels s') = master_left (audio_levels s')
   /\ levels_in_unit false (audio_levels s') = true
   /\ (exists k, crossfaded_contribution s' = Some k
                 /\ fle (master_left (audio_levels s'))
                      (fmul (master_volume (mixer s')) k) = true)
   /\ fle (master_left (audio_levels s')) (master_volume (mixer s')) = true)
  /\
  (let s' := fst (StartMockServer8082.handle env (get "/api/mixer/status") s) in
   mixer s' = mixer s
   /\ (exists k, simplified_contribution s' = Some k
                 /\ master_left (audio_levels s')
                    = fmul k (master_volume (mixer s'))
                 /\ fle (master_left (audio_levels s'))
                      (fmul (master_volume (mixer s')) k) = true)
   /\ master_right (audio_levels s') = master_left (audio_levels s')
   /\ levels_in_unit true (audio_levels s') = true
   /\ fle (master_left (audio_levels s')) (master_volume (mixer s')) = true).
Proof.
  intros Hinv Hrand. split.
  - exact (status_8080 py_str env s Hinv Hrand).
  - exact (status_8082 env s Hinv Hrand).
Qed.

Lemma half_in_range : random_in_range env_half.
Proof. intros i. simpl. lra. Qed.

Lemma invariant_live : invariant live_state.
Proof.
  split; simpl; try reflexivity; repeat constructor.
Qed.

Lemma level_simulation_per_server_witness :
  let s := live_state in
  (let s' := fst (MockCppServer.handle (fun _ => "") env_half
                    (get "/api/mixer/status") s) in
   mixer s' = mixer s
   /\ crossfaded_master s' = Some (master_left (audio_levels s'))
   /\ master_right (audio_levels s') = master_left (audio_levels s')
   /\ levels_in_unit false (audio_levels s') = true
   /\ (exists k, crossfaded_contribution s' = Some k
                 /\ fle (master_left (audio_levels s'))
                      (fmul (master_volume (mixer s')) k) = true)
   /\ fle (master_left (audio_levels s')) (master_volume (mixer s')) = true)
  /\
  (let s' := fst (StartMockServer8082.handle env_half
                    (get "/api/mixer/status") s) in
   mixer s' = mixer s
   /\ (exists k, simplified_contribution s' = Some k
                 /\ master_left (audio_levels s')
                    = fmul k (master_volume (mixer s'))
                 /\ fle (master_left (audio_levels s'))
                      (fmul (master_volume (mixer s')) k) = true)
   /\ master_right (audio_levels s') = master_left (audio_levels s')
   /\ levels_in_unit true (audio_levels s') = true
   /\ fle (master_left (audio_levels s')) (master_volume (mixer s')) = true).
Proof.
  exact (level_simulation_per_server (fun _ => "") env_half live_state
           invariant_live half_in_range).
Defined.

(** The levels of that run: with the first channel playing, the microphone
    on and every draw at one half, the channel level is 0.6; the port-8080
    server reports 0.6 x 0.7 x 0.5 x 0.8 as master level, the port-8082
    server 0.6 x 0.7 x 0.8, the microphone level 0.55 x 0.5 being the
    smaller contribution. *)
Example levels_of_live_state :
  let a := audio_levels (fst (MockCppServer.handle (fun _ => "") env_half
                                (get "/api/mixer/status") live_state)) in
  let b := audio_levels (fst (StartMockServer8082.handle env_half
                                (get "/api/mixer/status") live_state)) in
  (channel_1_left a = Finite (3 # 5)
   /\ channel_1_right a = Finite (3 # 5)
   /\ channel_2_left a = Finite 0
   /\ master_left a = Finite (21 # 125)
   /\ master_right a = Finite (21 # 125))
  /\ (channel_1_left b = Finite (3 # 5)
      /\ channel_2_left b = Finite 0
      /\ microphone_level b = Finite (11 # 40)
      /\ master_left b = Finite (42 # 125)
      /\ master_right b = Finite (42 # 125)).
Proof. vm_compute. repeat split. Qed.

(** Against C2 as stated: on the port-8082 server the master level is not
    the crossfaded maximum of the channel outputs.  After a microphone start with gain 100 and with
    the random source at one half, the status query sets the master level to
    0.55 x 0.8 = 0.44 while both channels are silent; and in a state whose
    first channel plays, the master level is 0.6 x 0.7 x 0.8, twice what the
    crossfader at 0.5 would leave of it. *)
Lemma simplified_mix_not_crossfaded :
  (let s := fst (StartMockServer8082.handle env_half
                   (post "/api/mixer/microphone/start" (JDict [("gain", JInt 100)]))
                   (initial_state 0)) in
   let s' := fst (StartMockServer8082.handle env_half
                    (get "/api/mixer/status") s) in
   master_left (audio_levels s') = Finite (11 # 25)
   /\ crossfaded_master s' = Some (Finite 0)
   /\ crossfaded_master s' <> Some (master_left (audio_levels s'))
   /\ crossfaded_contribution s' = Some (Finite 0)
   /\ fle (master_left (audio_levels s'))
        (fmul (master_volume (mixer s')) (Finite 0)) = false)
  /\
  (let s := with_mixer
              (fun m => set_channels (alter (set_is_playing true) 0%nat (channels m)) m)
              (initial_state 0) in
   let s' := fst (StartMockServer8082.handle env_half
                    (get "/api/mixer/status") s) in
   master_left (audio_levels s') = Finite (42 # 125)
   /\ crossfaded_master s' = Some (Finite (21 # 125))
   /\ crossfaded_master s' <> Some (master_left (audio_levels s'))).
Proof.
  vm_compute. repeat split; discriminate.
Qed.

(** ** Scenarios of the specification, run on the model *)

Example scenario_playback_play :
  snd (MockCppServer.handle (fun _ => "") env0
         (post "/api/mixer/channel/2/playback" (JDict [("action", JStr "play")]))
         (initial_state 0))
  = Reply 200 (JDict [("success", JBool true);
                      ("action", JStr "playback_play");
                      ("channel", JInt 2);
                      ("is_playing", JBool true)]).
Proof. reflexivity. Qed.

Example scenario_channel_9 :
  MockCppServer.handle (fun _ => "") env0
    (post "/api/mixer/channel/9/volume" (JDict [("value", JFloat (Finite 0.5))]))
    (initial_state 0)
  = (initial_state 0,
     Reply 400 (JDict [("success", JBool false);
                       ("error", JStr "Invalid channel ID")])).
Proof. reflexivity. Qed.

Example scenario_microphone_status :
  let s := fst (StartMockServer8082.handle env0
                  (post "/api/mixer/microphone/start" (JDict [("gain", JInt 50)]))
                  (initial_state 0)) in
  snd (StartMockServer8082.handle env0 (get "/api/mixer/microphone/status") s)
  = Reply 200 (JDict [("success", JBool true);
                      ("microphone",
                       JDict [("enabled", JBool true);
                              ("muted", JBool false);
                              ("gain", JFloat (Finite (1 # 2)));
                              ("talkover", JBool true)])]).
Proof. reflexivity. Qed.

Example scenario_load_track :
  let s := fst (MockCppServer.handle (fun _ => "") env0
                  (post "/api/mixer/channel/1/load" (JDict [("name", JStr "intro")]))
                  (initial_state 0)) in
  (loaded_track <$> channels (mixer s) !! 0%nat) = Some (JStr "intro")
  /\ (position <$> channels (mixer s) !! 0%nat) = Some (Finite 0).
Proof. split; reflexivity. Qed.

(** The channel routes do not exist on the port-8082 server. *)
Example scenario_no_channel_route_8082 :
  snd (StartMockServer8082.handle env0
         (post "/api/mixer/channel/9/volume" (JDict [])) (initial_state 0))
  = Reply 404
      (JDict [("success", JBool false);
              ("error",
               JStr "POST endpoint not implemented: /api/mixer/channel/9/volume")]).
Proof. reflexivity. Qed.

(** A microphone start whose gain [float] rejects has already set [enabled]
    when the exception ends the handler. *)
Example scenario_start_bad_gain :
  let r := StartMockServer8082.handle env0
             (post "/api/mixer/microphone/start" (JDict [("gain", JStr "high")]))
             (initial_state 0) in
  snd r = Died ValueError
  /\ enabled (microphone (fst r)) = true
  /\ talkover (microphone (fst r)) = false.
Proof. repeat split. Qed.

Example int_examples :
  py_int "1" = Some 1 /\ py_int " +1_0 " = Some 10 /\ py_int "-0" = Some 0
  /\ py_int "1__0" = None /\ py_int "" = None /\ py_int "1.0" = None
  /\ py_int "volume" = None.
Proof. repeat split. Qed.

Example float_examples :
  py_float_of_str "1.5" = Some (Finite (3 # 2))
  /\ py_float_of_str "-.5e1" = Some (Finite (-5))
  /\ py_float_of_str "1_0.2_5E-1" = Some (Finite (41 # 40))
  /\ py_float_of_str "-Infinity" = Some NegInf
  /\ py_float_of_str "nan" = Some NaN
  /\ py_float_of_str "abc" = None /\ py_float_of_str "." = None
  /\ py_float_of_str "1e" = None /\ py_float_of_str "1._5" = None.
Proof. repeat split. Qed.

Example split_examples :
  split "/" "/api/mixer/channel/1/volume"
  = [""; "api"; "mixer"; "channel"; "1"; "volume"]
  /\ split "/" "" = [""]
  /\ split "/" "a//b/" = ["a"; ""; "b"; ""]
  /\ addressed_channel "/api/mixer/channel/volume" = None
  /\ addressed_channel "/api/mixer/channel/2/x/volume" = Some 2.
Proof. repeat split. Qed.

(** * Further properties of the handlers *)

(** ** What a request leaves alone *)

Ltac frame_step :=
  lazymatch goal with
  | |- preserves _ (bind (lift _) _) => apply preserves_bind_lift; intros ? ?
  | |- preserves _ (bind _ _) => apply preserves_bind; [|intros ?]
  | |- preserves _ (if _ then _ else _) => apply preserves_if
  | |- preserves _ (try_except _ _ _) => apply preserves_try_except
  | |- preserves _ (ret _) => apply preserves_ret
  | |- preserves _ (raise _) => apply preserves_raise
  | |- preserves _ (lift _) => apply preserves_lift
  | |- preserves _ (send_json_response _ _) => apply preserves_send
  | |- preserves _ get_state => apply preserves_get_state
  | |- preserves _ (index _ _) => apply preserves_index
  | |- preserves _ (int _) => apply preserves_int
  | |- preserves _ (channel _) => apply preserves_channel
  | |- preserves _ (uniform _ _ _) => apply preserves_uniform
  | |- preserves _ (randint _ _ _) => apply preserves_randint
  | |- preserves _ (set_audio_level _ _) => apply preserves_modify; intros ? ?
  | |- preserves _ (set_channel _ _) => apply preserves_set_channel; intros ? ?
  | |- preserves _ (modify _) => apply preserves_modify; intros ? ?
  end.

Lemma run_preserves (P : ServerState -> Prop) (c : M reply) (s : ServerState) :
  preserves P c -> P s -> P (fst (run c s)).
Proof.
  intros Hc Hs. unfold run. specialize (Hc (mkStore s 0) Hs).
  destruct (c (mkStore s 0)) as [st [r|e]]; exact Hc.
Qed.

Lemma run_modify_first (f : ServerState -> ServerState) (k : unit -> M reply)
  (s : ServerState) :
  run (bind (modify f) k) s = run (k tt) (f s).
Proof. reflexivity. Qed.

Lemma simulate_channel_levels_frame (P : ServerState -> Prop) (env : Env)
  (l : list Channel) (i : nat) :
  (forall f s, P s -> P (with_audio_levels f s)) ->
  preserves P (StartMockServer8082.simulate_channel_levels env i l).
Proof.
  intros HP. revert i. induction l as [|c l IH]; intros i; simpl.
  - apply preserves_ret.
  - apply preserves_bind; [|intros _; apply IH].
    repeat frame_step; now apply HP.
Qed.

Lemma simulate_audio_levels_frame (P : ServerState -> Prop) (env : Env) :
  (forall f s, P s -> P (with_audio_levels f s)) ->
  preserves P (StartMockServer8082.simulate_audio_levels env).
Proof.
  intros HP. unfold StartMockServer8082.simulate_audio_levels.
  repeat first [apply simulate_channel_levels_frame; exact HP | frame_step];
    now apply HP.
Qed.

(** X1. A GET request to either server changes nothing but the uptime,
    which becomes the whole seconds since start-up, and the audio levels;
    and only /api/mixer/status changes the audio levels. *)
Theorem get_changes_uptime_and_levels_only (py_str : json -> string) (env : Env)
  (path : string) (payload : option json) (s : ServerState) :
  let frame s' :=
    mixer s' = mixer s /\ microphone s' = microphone s
    /\ status s' = status s /\ start_time s' = start_time s
    /\ uptime s' = Qtruncate (time_now env - start_time s)
    /\ (String.eqb path "/api/mixer/status" = false ->
        audio_levels s' = audio_levels s) in
  frame (fst (MockCppServer.handle py_str env (mkRequest GET path payload) s))
  /\ frame (fst (StartMockServer8082.handle env (mkRequest GET path payload) s)).
Proof.
  intros frame.
  set (P := fun s' : ServerState =>
              mixer s' = mixer s /\ microphone s' = microphone s
              /\ status s' = status s /\ start_time s' = start_time s
              /\ uptime s' = Qtruncate (time_now env - start_time s)).
  assert (HP : forall f s', P s' -> P (with_audio_levels f s')) by (intros f s' H; exact H).
  assert (HP0 : P (with_uptime (Qtruncate (time_now env - start_time s)) s))
    by (repeat split).
  set (Q := fun s' : ServerState => P s' /\ audio_levels s' = audio_levels s).
  assert (HQ0 : Q (with_uptime (Qtruncate (time_now env - start_time s)) s))
    by (repeat split).
  split; subst frame; cbv beta.
  - unfold MockCppServer.handle. cbn [req_method req_path].
    unfold MockCppServer.do_GET. rewrite run_modify_first.
    destruct (String.eqb path "/api/mixer/status") eqn:Hpath.
    + match goal with
      | |- context [run ?c ?s0] => assert (H : P (fst (run c s0)))
      end.
      { apply run_preserves; [|exact HP0]. repeat frame_step; now apply HP. }
      destruct H as (? & ? & ? & ? & ?). repeat split; try assumption.
      discriminate.
    + match goal with
      | |- context [run ?c ?s0] => assert (H : Q (fst (run c s0)))
      end.
      { apply run_preserves; [|exact HQ0]. repeat frame_step. }
      destruct H as ((? & ? & ? & ? & ?) & ?). repeat split; intros; assumption.
  - unfold StartMockServer8082.handle. cbn [req_method req_path].
    unfold StartMockServer8082.do_GET. rewrite run_modify_first.
    destruct (String.eqb path "/api/mixer/status") eqn:Hpath.
    + match goal with
      | |- context [run ?c ?s0] => assert (H : P (fst (run c s0)))
      end.
      { apply run_preserves; [|exact HP0].
        repeat first [apply simulate_audio_levels_frame; exact HP | frame_step]. }
      destruct H as (? & ? & ? & ? & ?). repeat split; try assumption.
      discriminate.
    + match goal with
      | |- context [run ?c ?s0] => assert (H : Q (fst (run c s0)))
      end.
      { apply run_preserves; [|exact HQ0]. repeat frame_step. }
      destruct H as ((? & ? & ? & ? & ?) & ?). repeat split; intros; assumption.
Qed.

Lemma get_changes_uptime_and_levels_only_witness :
  let s := fst (MockCppServer.handle (fun _ => "") env_half
                  (get "/api/mixer/status")
                  (with_mixer
                     (fun m => set_channels
                                 (alter (set_is_playing true) 0%nat (channels m)) m)
                     (initial_state 0))) in
  audio_levels (fst (MockCppServer.handle (fun _ => "") env0
                       (get "/api/audio/levels") s))
  = audio_levels s.
Proof.
  intros s.
  exact (proj2 (proj2 (proj2 (proj2 (proj2
           (proj1 (get_changes_uptime_and_levels_only (fun _ => "") env0
                     "/api/audio/levels" None s)))))) eq_refl).
Defined.

(** X2. A POST request never changes the audio levels, the uptime, the
    status or the start time.  On the port-8080 server it also keeps the
    number of channels, their identifiers and equaliser settings and the
    muted flag, gain and talkover of the microphone; on the port-8082 server
    it keeps the whole mixer and the muted flag. *)
Theorem post_leaves_alone (py_str : json -> string) (env : Env)
  (path : string) (payload : option json) (s : ServerState) :
  let common s' :=
    audio_levels s' = audio_levels s /\ uptime s' = uptime s
    /\ status s' = status s /\ start_time s' = start_time s
    /\ muted (microphone s') = muted (microphone s) in
  (let s' := fst (MockCppServer.handle py_str env (mkRequest POST path payload) s) in
   common s'
   /\ length (channels (mixer s')) = length (channels (mixer s))
   /\ map ch_id (channels (mixer s')) = map ch_id (channels (mixer s))
   /\ map ch_eq (channels (mixer s')) = map ch_eq (channels (mixer s))
   /\ gain (microphone s') = gain (microphone s)
   /\ talkover (microphone s') = talkover (microphone s))
  /\
  (let s' := fst (StartMockServer8082.handle env (mkRequest POST path payload) s) in
   common s' /\ mixer s' = mixer s).
Proof.
  intros common. subst common. cbv beta. split.
  - set (P := fun s' : ServerState =>
                (audio_levels s' = audio_levels s /\ uptime s' = uptime s
                 /\ status s' = status s /\ start_time s' = start_time s
                 /\ muted (microphone s') = muted (microphone s))
                /\ length (channels (mixer s')) = length (channels (mixer s))
                /\ map ch_id (channels (mixer s')) = map ch_id (channels (mixer s))
                /\ map ch_eq (channels (mixer s')) = map ch_eq (channels (mixer s))
                /\ gain (microphone s') = gain (microphone s)
                /\ talkover (microphone s') = talkover (microphone s)).
    apply (run_preserves P); [|subst P; repeat split].
    unfold MockCppServer.do_POST, MockCppServer.invalid_channel_id,
      MockCppServer.invalid_channel_id_in_path. cbv zeta.
    repeat frame_step;
      match goal with
      | H : P _ |- _ =>
          destruct H as ((? & ? & ? & ? & ?) & ? & ? & ? & ? & ?)
      end;
      subst P; cbv beta;
      cbn [with_mixer with_microphone mixer microphone audio_levels uptime
             status start_time set_channels set_crossfader set_master_volume
             set_enabled channels muted gain talkover];
      rewrite ?length_alter, ?map_alter_same by reflexivity;
      repeat split; assumption.
  - set (P := fun s' : ServerState =>
                (audio_levels s' = audio_levels s /\ uptime s' = uptime s
                 /\ status s' = status s /\ start_time s' = start_time s
                 /\ muted (microphone s') = muted (microphone s))
                /\ mixer s' = mixer s).
    apply (run_preserves P); [|subst P; repeat split].
    unfold StartMockServer8082.do_POST. cbv zeta.
    repeat frame_step;
      match goal with
      | H : P _ |- _ => destruct H as ((? & ? & ? & ? & ?) & ?)
      end;
      subst P; cbv beta; repeat split; assumption.
Qed.

(** ** What no sequence of requests changes *)

Lemma serve_preserves (P : ServerState -> Prop) handle
  (trace : list (Env * request)) (s : ServerState) :
  (forall env r s, P s -> P (fst (handle env r s))) ->
  P s -> P (serve handle trace s).
Proof.
  intros Hstep. revert s. induction trace as [|[env r] trace IH]; intros s Hs.
  - exact Hs.
  - simpl. apply IH. now apply Hstep.
Qed.

(** X3. The port-8082 server never changes the mixer: after every sequence
    of requests the crossfader, the master volume and both channels are as
    at start-up (so no channel ever plays there), and the microphone is
    never muted. *)
Theorem mixer_constant_on_8082 (now : Q) (trace : list (Env * request)) :
  let s := serve StartMockServer8082.handle trace (initial_state now) in
  mixer s = mixer (initial_state now)
  /\ Forall (fun c => is_playing c = false) (channels (mixer s))
  /\ muted (microphone s) = false.
Proof.
  intros s.
  set (P := fun s' : ServerState =>
              mixer s' = mixer (initial_state now)
              /\ muted (microphone s') = false).
  assert (H : P s).
  { apply serve_preserves; [|split; reflexivity].
    intros env r s0 H0. unfold StartMockServer8082.handle.
    destruct (req_method r); [| |exact H0]; apply run_preserves; try exact H0.
    - unfold StartMockServer8082.do_GET.
      repeat first [apply simulate_audio_levels_frame; intros ? ? Hx; exact Hx
                   | frame_step]; assumption.
    - unfold StartMockServer8082.do_POST. cbv zeta.
      repeat frame_step; assumption. }
  destruct H as [Hm Hmuted]. split; [exact Hm | split; [|exact Hmuted]].
  rewrite Hm. repeat constructor.
Qed.

(** X4. The port-8080 server never changes the equaliser of a channel nor
    the muted flag, the gain or the talkover of the microphone, and it never
    moves a playback position: after every sequence of requests they are as
    at start-up, every position at 0. *)
Theorem untouched_fields_on_8080 (py_str : json -> string) (now : Q)
  (trace : list (Env * request)) :
  let s := serve (MockCppServer.handle py_str) trace (initial_state now) in
  Forall (fun c => ch_eq c = mkEQ (Finite 0) (Finite 0) (Finite 0)
                   /\ position c = Finite 0)
    (channels (mixer s))
  /\ muted (microphone s) = false
  /\ gain (microphone s) = Finite 0.5
  /\ talkover (microphone s) = false.
Proof.
  intros s.
  set (P := fun s' : ServerState =>
              Forall (fun c => ch_eq c = mkEQ (Finite 0) (Finite 0) (Finite 0)
                               /\ position c = Finite 0)
                (channels (mixer s'))
              /\ muted (microphone s') = false
              /\ gain (microphone s') = Finite 0.5
              /\ talkover (microphone s') = false).
  apply (serve_preserves P); [|subst P; cbv beta; repeat constructor].
  intros env r s0 H0. unfold MockCppServer.handle.
  destruct (req_method r); [| |exact H0]; apply run_preserves; try exact H0.
  - unfold MockCppServer.do_GET. repeat frame_step; assumption.
  - unfold MockCppServer.do_POST, MockCppServer.invalid_channel_id,
      MockCppServer.invalid_channel_id_in_path. cbv zeta.
    repeat frame_step; try assumption;
      match goal with
      | H : P _ |- _ => destruct H as (? & ? & ? & ?)
      end;
      subst P; cbv beta;
      cbn [with_mixer with_microphone mixer microphone set_channels
             set_crossfader set_master_volume set_enabled channels muted gain
             talkover];
      (split; [|repeat split; assumption]);
      (apply Forall_alter; [assumption|]);
      intros c _ [Heq Hpos]; (split; [exact Heq|]);
      first [exact Hpos | reflexivity].
Qed.

(** ** The remaining routes of the port-8080 server *)

(** The load branch of [do_POST], once the route is known. *)
Lemma do_POST_load (py_str : json -> string) (env : Env) (path : string)
  (payload : option json) (n : Z) :
  channel_route path "/load" = true ->
  addressed_channel path = Some n ->
  MockCppServer.do_POST py_str env path payload
  = try_except
      (let channel_id := n - 1 in
       if (0 <=? channel_id)%Z && (channel_id <? 2)%Z then
         (track_name <-
            lift (dict_get (read_body payload) "name"
                    (JStr ("Track_" ++ str_of_Z (Qtruncate (time_now env))))) ;;
          set_channel (Z.to_nat channel_id) (set_loaded_track track_name) ;;
          set_channel (Z.to_nat channel_id) (set_position (Finite 0)) ;;
          lift (print_value env track_name) ;;
          send_json_response
            (JDict [("success", JBool true);
                    ("action", JStr "track_loaded");
                    ("channel", JInt (channel_id + 1));
                    ("track", track_name)]) 200)%monad
       else MockCppServer.invalid_channel_id)
      ValueError_or_IndexError
      MockCppServer.invalid_channel_id_in_path.
Proof.
  intros Hroute Haddr. unfold MockCppServer.do_POST. cbv zeta.
  rewrite (channel_route_not_crossfader _ _ Hroute).
  pose proof Hroute as [Hprefix Hsuffix]%andb_true_iff.
  rewrite Hprefix, (endswith_load_not_volume _ Hsuffix), Hsuffix. cbn [andb].
  now rewrite (addressed_channel_some _ _ _ Haddr).
Qed.



(** A track name that the standard output cannot encode: the track is
    loaded on channel 2 and the answer is the 400 of the [except] clause. *)
Example load_with_unprintable_name :
  let env := mkEnv 0 "" (fun _ => 0%Q) (fun _ => 0%nat) (fun _ => false) in
  let r := MockCppServer.handle (fun _ => "") env
             (post "/api/mixer/channel/2/load" (JDict [("name", JStr "x")]))
             (initial_state 0) in
  snd r = Reply 400 (JDict [("success", JBool false);
                            ("error", JStr "Invalid channel ID in path")])
  /\ loaded_track <$> channels (mixer (fst r)) !! 1%nat = Some (JStr "x").
Proof. split; reflexivity. Qed.

(** X6. For a channel id of 1 or 2, a playback request with the action play,
    or with no action in the body, makes that channel play and keeps its
    position and everything else; the answer reports playback_play and
    is_playing true. *)
Theorem playback_play_starts (py_str : json -> string) (env : Env)
  (s : ServerState) (path : string) (id : Z) (kv : list (string * json))
  (c : Channel) :
  channel_route path "/playback" = true ->
  addressed_channel path = Some id ->
  id = 1 \/ id = 2 ->
  channels (mixer s) !! Z.to_nat (id - 1) = Some c ->
  assoc "action" kv = Some (JStr "play") \/ assoc "action" kv = None ->
  MockCppServer.handle py_str env (post path (JDict kv)) s
  = (with_mixer
       (fun m => set_channels
                   (alter (set_is_playing true) (Z.to_nat (id - 1)) (channels m)) m) s,
     Reply 200 (JDict [("success", JBool true);
                       ("action", JStr "playback_play");
                       ("channel", JInt id);
                       ("is_playing", JBool true)])).
Proof.
  intros Hroute Haddr Hid Hc Hkv.
  unfold MockCppServer.handle, run, post. cbn [req_method req_path req_body].
  rewrite (do_POST_playback _ _ _ _ _ Hroute Haddr).
  destruct s as [st0 up t0 [cf mv chans] mic lv].
  cbn [mixer channels] in Hc |- *.
  open_channel Hid Hc chans;
    unfold try_except, bind at 1, lift; cbn [read_body dict_get];
    destruct Hkv as [-> | ->]; reflexivity.
Qed.

Lemma playback_play_starts_witness :
  MockCppServer.handle (fun _ => "") env0
    (post "/api/mixer/channel/2/playback" (JDict [])) (initial_state 0)
  = (with_mixer
       (fun m => set_channels (alter (set_is_playing true) 1%nat (channels m)) m)
       (initial_state 0),
     Reply 200 (JDict [("success", JBool true);
                       ("action", JStr "playback_play");
                       ("channel", JInt 2);
                       ("is_playing", JBool true)])).
Proof.
  exact (playback_play_starts (fun _ => "") env0 (initial_state 0)
           "/api/mixer/channel/2/playback" 2 [] (initial_channel 2)
           eq_refl eq_refl (or_intror eq_refl) eq_refl (or_intror eq_refl)).
Defined.

(** X7. For every value that is a float other than nan or an integer
    within the range of a double, POST /api/mixer/master/volume stores its
    clamp to [0,1] as the master volume, changes nothing else and answers
    with the action master_volume_set and the stored value. *)
Theorem master_volume_stores_clamp (py_str : json -> string) (env : Env)
  (s : ServerState) (kv : list (string * json)) (value : json) (v : pyfloat) :
  assoc "value" kv = Some value ->
  json_number value v ->
  MockCppServer.handle py_str env (post "/api/mixer/master/volume" (JDict kv)) s
  = (with_mixer (set_master_volume (clamp v (Finite 0) (Finite 1))) s,
     Reply 200 (JDict [("success", JBool true);
                       ("action", JStr "master_volume_set");
                       ("value", JFloat (clamp v (Finite 0) (Finite 1)))])).
Proof.
  intros Hkv Hnum.
  unfold MockCppServer.handle, run, MockCppServer.do_POST. cbn.
  unfold bind, lift. cbn. rewrite Hkv, (py_float_number _ _ Hnum). cbn.
  rewrite max_min_clamp by (lra || eauto using json_number_not_nan).
  reflexivity.
Qed.

Lemma master_volume_stores_clamp_witness :
  MockCppServer.handle (fun _ => "") env0
    (post "/api/mixer/master/volume" (JDict [("value", JInt 7)])) (initial_state 0)
  = (with_mixer (set_master_volume (Finite 1)) (initial_state 0),
     Reply 200 (JDict [("success", JBool true);
                       ("action", JStr "master_volume_set");
                       ("value", JFloat (Finite 1))])).
Proof.
  exact (master_volume_stores_clamp (fun _ => "") env0 (initial_state 0)
           [("value", JInt 7)] (JInt 7) (Finite (inject_Z 7))
           eq_refl (number_int 7 eq_refl)).
Defined.

(** X8. POST /api/mixer/microphone/toggle, whatever its body, answers with
    the negation of the enabled flag and stores it; a second toggle answers
    with the original flag and restores the state exactly. *)
Theorem toggle_twice_restores (py_str : json -> string) (env env' : Env)
  (payload payload' : option json) (s : ServerState) :
  let first := MockCppServer.handle py_str env
                 (mkRequest POST "/api/mixer/microphone/toggle" payload) s in
  let second := MockCppServer.handle py_str env'
                  (mkRequest POST "/api/mixer/microphone/toggle" payload') (fst first) in
  snd first = Reply 200 (JDict [("success", JBool true);
                                ("action", JStr "microphone_toggle");
                                ("enabled", JBool (negb (enabled (microphone s))))])
  /\ enabled (microphone (fst first)) = negb (enabled (microphone s))
  /\ second = (s, Reply 200 (JDict [("success", JBool true);
                                    ("action", JStr "microphone_toggle");
                                    ("enabled", JBool (enabled (microphone s)))])).
Proof.
  destruct s as [st0 up t0 m [on mu g talk] lv].
  repeat split. cbn. destruct on; reflexivity.
Qed.

(** ** Bodies that are missing, incomplete or of the wrong kind *)

Lemma lacks_get (key : string) (payload : option json) (default : json) :
  lacks key payload = true ->
  dict_get (read_body payload) key default = Ok default.
Proof.
  destruct payload as [[| | | | | |kv]|]; try discriminate; [|reflexivity].
  simpl. destruct (assoc key kv); [discriminate | reflexivity].
Qed.

Lemma not_a_dict_get (key : string) (payload : option json) (default : json) :
  not_a_dict payload = true ->
  dict_get (read_body payload) key default = Raise AttributeError.
Proof.
  destruct payload as [[| | | | | |kv]|]; try discriminate; reflexivity.
Qed.

(** X9. On the port-8080 server a request without a decodable body, or
    whose body has no value, sets the crossfader to 0.5, the master volume
    to 0.8 and the volume of an addressed channel 1 or 2 to 0.7, and answers
    as for a supplied value. *)
Theorem missing_value_defaults (py_str : json -> string) (env : Env)
  (s : ServerState) (payload : option json) :
  lacks "value" payload = true ->
  MockCppServer.handle py_str env
    (mkRequest POST "/api/mixer/crossfader" payload) s
  = (with_mixer (set_crossfader (Finite 0.5)) s,
     Reply 200 (JDict [("success", JBool true);
                       ("action", JStr "crossfader_set");
                       ("value", JFloat (Finite 0.5))]))
  /\ MockCppServer.handle py_str env
       (mkRequest POST "/api/mixer/master/volume" payload) s
     = (with_mixer (set_master_volume (Finite 0.8)) s,
        Reply 200 (JDict [("success", JBool true);
                          ("action", JStr "master_volume_set");
                          ("value", JFloat (Finite 0.8))]))
  /\ (forall path id c,
        channel_route path "/volume" = true ->
        addressed_channel path = Some id ->
        id = 1 \/ id = 2 ->
        channels (mixer s) !! Z.to_nat (id - 1) = Some c ->
        MockCppServer.handle py_str env (mkRequest POST path payload) s
        = (with_mixer
             (fun m => set_channels
                         (alter (set_volume (Finite 0.7)) (Z.to_nat (id - 1))
                            (channels m)) m) s,
           Reply 200 (JDict [("success", JBool true);
                             ("action", JStr "channel_volume_set");
                             ("channel", JInt id);
                             ("value", JFloat (Finite 0.7))]))).
Proof.
  intros Hlacks. repeat split.
  - unfold MockCppServer.handle, MockCppServer.do_POST.
    cbn [req_method req_path req_body]. cbv zeta.
    rewrite !(lacks_get _ _ _ Hlacks). reflexivity.
  - unfold MockCppServer.handle, MockCppServer.do_POST.
    cbn [req_method req_path req_body]. cbv zeta.
    rewrite !(lacks_get _ _ _ Hlacks). reflexivity.
  - intros path id c Hroute Haddr Hid Hc.
    unfold MockCppServer.handle, run. cbn [req_method req_path req_body].
    rewrite (do_POST_volume _ _ _ _ _ Hroute Haddr).
    destruct s as [st0 up t0 [cf mv chans] mic lv].
    cbn [mixer channels] in Hc |- *.
    open_channel Hid Hc chans;
      unfold try_except, bind at 1, lift; rewrite (lacks_get _ _ _ Hlacks);
      reflexivity.
Qed.

Lemma missing_value_defaults_witness :
  MockCppServer.handle (fun _ => "") env0
    (mkRequest POST "/api/mixer/crossfader" (Some (JDict [("volume", JInt 1)])))
    (initial_state 0)
  = (with_mixer (set_crossfader (Finite 0.5)) (initial_state 0),
     Reply 200 (JDict [("success", JBool true);
                       ("action", JStr "crossfader_set");
                       ("value", JFloat (Finite 0.5))])).
Proof.
  exact (proj1 (missing_value_defaults (fun _ => "") env0 (initial_state 0)
                  (Some (JDict [("volume", JInt 1)])) eq_refl)).
Defined.

(** X10. On the port-8082 server a microphone start or gain request without
    a decodable body, or whose body has no gain, uses 75: the stored gain is
    three quarters and the answer reports the gain 75.0. *)
Theorem missing_gain_defaults (env : Env) (s : ServerState)
  (payload : option json) :
  lacks "gain" payload = true ->
  StartMockServer8082.handle env
    (mkRequest POST "/api/mixer/microphone/start" payload) s
  = (with_microphone
       (fun m => mkMicrophone true (muted m) (Finite (3 # 4)) true) s,
     Reply 200 (JDict [("success", JBool true);
                       ("action", JStr "microphone_started");
                       ("gain", JFloat (Finite 75));
                       ("talkover_enabled", JBool true);
                       ("message", JStr "Microphone started with auto-talkover")]))
  /\ StartMockServer8082.handle env
       (mkRequest POST "/api/mixer/microphone/gain" payload) s
     = (with_microphone (set_gain (Finite (3 # 4))) s,
        Reply 200 (JDict [("success", JBool true);
                          ("action", JStr "microphone_gain_set");
                          ("gain", JFloat (Finite 75));
                          ("normalized_gain", JFloat (Finite (3 # 4)))])).
Proof.
  intros Hlacks. split.
  - unfold StartMockServer8082.handle, StartMockServer8082.do_POST.
    cbn [req_method req_path req_body]. cbv zeta.
    rewrite !(lacks_get _ _ _ Hlacks). reflexivity.
  - unfold StartMockServer8082.handle, StartMockServer8082.do_POST.
    cbn [req_method req_path req_body]. cbv zeta.
    rewrite !(lacks_get _ _ _ Hlacks). reflexivity.
Qed.

Lemma missing_gain_defaults_witness :
  StartMockServer8082.handle env0
    (mkRequest POST "/api/mixer/microphone/gain" None) (initial_state 0)
  = (with_microphone (set_gain (Finite (3 # 4))) (initial_state 0),
     Reply 200 (JDict [("success", JBool true);
                       ("action", JStr "microphone_gain_set");
                       ("gain", JFloat (Finite 75));
                       ("normalized_gain", JFloat (Finite (3 # 4)))])).
Proof.
  exact (proj2 (missing_gain_defaults env0 (initial_state 0) None eq_refl)).
Defined.

(** X11. A body that decodes to a JSON value other than an object has no
    [get]: the crossfader, master-volume and valid channel requests of the
    port-8080 server and the microphone start and gain requests of the
    port-8082 server then end with AttributeError, without a response and
    without any change of the state; toggle and stop do not read the body
    and answer as usual. *)
Theorem body_not_a_dict (py_str : json -> string) (env : Env)
  (s : ServerState) (payload : option json) :
  not_a_dict payload = true ->
  (forall path,
     path = "/api/mixer/crossfader" \/ path = "/api/mixer/master/volume" ->
     MockCppServer.handle py_str env (mkRequest POST path payload) s
     = (s, Died AttributeError))
  /\ (forall path id,
        channel_route path "/volume" || channel_route path "/load"
        || channel_route path "/playback" = true ->
        addressed_channel path = Some id ->
        id = 1 \/ id = 2 ->
        MockCppServer.handle py_str env (mkRequest POST path payload) s
        = (s, Died AttributeError))
  /\ (forall path,
        path = "/api/mixer/microphone/start" \/ path = "/api/mixer/microphone/gain" ->
        StartMockServer8082.handle env (mkRequest POST path payload) s
        = (s, Died AttributeError))
  /\ (exists d,
        MockCppServer.handle py_str env
          (mkRequest POST "/api/mixer/microphone/toggle" payload) s
        = (with_microphone (fun m => set_enabled (negb (enabled m)) m) s,
           Reply 200 d))
  /\ (exists d,
        StartMockServer8082.handle env
          (mkRequest POST "/api/mixer/microphone/stop" payload) s
        = (with_microphone (fun m => set_talkover false (set_enabled false m)) s,
           Reply 200 d)).
Proof.
  intros Hbody. split; [|split; [|split; [|split]]].
  - intros path [-> | ->];
      unfold MockCppServer.handle, MockCppServer.do_POST;
      cbn [req_method req_path req_body]; cbv zeta;
      rewrite !(not_a_dict_get _ _ _ Hbody); reflexivity.
  - intros path id Hroute Haddr Hid.
    unfold MockCppServer.handle. cbn [req_method req_path req_body].
    assert (Hguard : (0 <=? id - 1)%Z && (id - 1 <? 2)%Z = true)
      by (destruct Hid; now subst).
    destruct (channel_route path "/volume") eqn:Hv;
      [|destruct (channel_route path "/load") eqn:Hl;
        [|destruct (channel_route path "/playback") eqn:Hp; [|discriminate Hroute]]].
    + rewrite (do_POST_volume _ _ _ _ _ Hv Haddr). cbv zeta. rewrite Hguard.
      unfold run, try_except, bind at 1, lift.
      rewrite (not_a_dict_get _ _ _ Hbody). reflexivity.
    + rewrite (do_POST_load _ _ _ _ _ Hl Haddr). cbv zeta. rewrite Hguard.
      unfold run, try_except, bind at 1, lift.
      rewrite (not_a_dict_get _ _ _ Hbody). reflexivity.
    + rewrite (do_POST_playback _ _ _ _ _ Hp Haddr). cbv zeta. rewrite Hguard.
      unfold run, try_except, bind at 1, lift.
      rewrite (not_a_dict_get _ _ _ Hbody). reflexivity.
  - intros path [-> | ->];
      unfold StartMockServer8082.handle, StartMockServer8082.do_POST;
      cbn [req_method req_path req_body]; cbv zeta;
      rewrite !(not_a_dict_get _ _ _ Hbody); reflexivity.
  - eexists. reflexivity.
  - eexists. reflexivity.
Qed.

Lemma body_not_a_dict_witness :
  MockCppServer.handle (fun _ => "") env0
    (mkRequest POST "/api/mixer/crossfader" (Some (JList [JFloat (Finite 0.3)])))
    (initial_state 0)
  = (initial_state 0, Died AttributeError).
Proof.
  exact (proj1 (body_not_a_dict (fun _ => "") env0 (initial_state 0)
                  (Some (JList [JFloat (Finite 0.3)])) eq_refl)
           "/api/mixer/crossfader" (or_introl eq_refl)).
Defined.

(** X12. A value that [float] does not convert ends the crossfader and
    master-volume requests of the port-8080 server and the gain request of
    the port-8082 server with the exception of [float], without a response
    and with the state unchanged; the microphone start request has by then
    set enabled, and leaves gain and talkover as they were. *)
Theorem unconvertible_value (py_str : json -> string) (env : Env)
  (s : ServerState) (kv : list (string * json)) (key : string) (value : json)
  (e : exn) :
  assoc key kv = Some value ->
  py_float value = Raise e ->
  (key = "value" ->
   MockCppServer.handle py_str env (post "/api/mixer/crossfader" (JDict kv)) s
   = (s, Died e)
   /\ MockCppServer.handle py_str env (post "/api/mixer/master/volume" (JDict kv)) s
      = (s, Died e))
  /\ (key = "gain" ->
      StartMockServer8082.handle env (post "/api/mixer/microphone/gain" (JDict kv)) s
      = (s, Died e)
      /\ StartMockServer8082.handle env
           (post "/api/mixer/microphone/start" (JDict kv)) s
         = (with_microphone (set_enabled true) s, Died e)).
Proof.
  intros Hkv Hvalue. split; intros ->; split.
  - unfold MockCppServer.handle, run, MockCppServer.do_POST, post. cbn.
    unfold bind, lift. cbn. rewrite Hkv, Hvalue. reflexivity.
  - unfold MockCppServer.handle, run, MockCppServer.do_POST, post. cbn.
    unfold bind, lift. cbn. rewrite Hkv, Hvalue. reflexivity.
  - unfold StartMockServer8082.handle, run, StartMockServer8082.do_POST, post.
    cbn. unfold bind, lift. cbn. rewrite Hkv, Hvalue. reflexivity.
  - unfold StartMockServer8082.handle, run, StartMockServer8082.do_POST, post.
    cbn. unfold bind, lift. cbn. rewrite Hkv, Hvalue. reflexivity.
Qed.

Lemma unconvertible_value_witness :
  StartMockServer8082.handle env0
    (post "/api/mixer/microphone/gain" (JDict [("gain", JStr "loud")]))
    (initial_state 0)
  = (initial_state 0, Died ValueError)
  /\ StartMockServer8082.handle env0
       (post "/api/mixer/microphone/start" (JDict [("gain", JStr "loud")]))
       (initial_state 0)
     = (with_microphone (set_enabled true) (initial_state 0), Died ValueError).
Proof.
  exact (proj2 (unconvertible_value (fun _ => "") env0 (initial_state 0)
                  [("gain", JStr "loud")] "gain" (JStr "loud") ValueError
                  eq_refl eq_refl) eq_refl).
Defined.

(** X13. A path that no branch matches is answered with status 404, success
    false and an error: a POST leaves the state unchanged and names the path
    in its error; a GET answers "Endpoint not found" and lists the available
    endpoints. *)
Theorem unknown_route_404 (py_str : json -> string) (env : Env)
  (s : ServerState) (path : string) (payload : option json) :
  (known_post_8080 path = false ->
   MockCppServer.handle py_str env (mkRequest POST path payload) s
   = (s, Reply 404 (JDict [("success", JBool false);
                           ("error",
                            JStr ("POST endpoint not implemented: " ++ path))])))
  /\ (known_post_8082 path = false ->
      StartMockServer8082.handle env (mkRequest POST path payload) s
      = (s, Reply 404 (JDict [("success", JBool false);
                              ("error",
                               JStr ("POST endpoint not implemented: " ++ path))])))
  /\ (known_get_8080 path = false ->
      snd (MockCppServer.handle py_str env (mkRequest GET path payload) s)
      = Reply 404 (JDict [("success", JBool false);
                          ("error", JStr "Endpoint not found");
                          ("available_endpoints",
                           MockCppServer.available_endpoints)]))
  /\ (known_get_8082 path = false ->
      snd (StartMockServer8082.handle env (mkRequest GET path payload) s)
      = Reply 404 (JDict [("success", JBool false);
                          ("error", JStr "Endpoint not found");
                          ("available_endpoints",
                           StartMockServer8082.available_endpoints)])).
Proof.
  split; [|split; [|split]].
  - unfold known_post_8080, channel_route.
    rewrite !orb_false_iff. intros (((((H1 & H2) & H3) & H4) & H5) & H6).
    unfold MockCppServer.handle, MockCppServer.do_POST.
    cbn [req_method req_path req_body]. cbv zeta.
    rewrite H1, H2, H3, H4, H5, H6. reflexivity.
  - unfold known_post_8082.
    rewrite !orb_false_iff. intros ((H1 & H2) & H3).
    unfold StartMockServer8082.handle, StartMockServer8082.do_POST.
    cbn [req_method req_path req_body]. cbv zeta.
    rewrite H1, H2, H3. reflexivity.
  - unfold known_get_8080.
    rewrite !orb_false_iff. intros ((((H1 & H2) & H3) & H4) & H5).
    unfold MockCppServer.handle, MockCppServer.do_GET.
    cbn [req_method req_path req_body].
    rewrite H1, H2, H3, H4, H5. reflexivity.
  - unfold known_get_8082.
    rewrite !orb_false_iff. intros ((H1 & H2) & H3).
    unfold StartMockServer8082.handle, StartMockServer8082.do_GET.
    cbn [req_method req_path req_body].
    rewrite H1, H2, H3. reflexivity.
Qed.

Lemma unknown_route_404_witness :
  MockCppServer.handle (fun _ => "") env0
    (mkRequest POST "/api/mixer/microphone/start" None) (initial_state 0)
  = (initial_state 0,
     Reply 404 (JDict [("success", JBool false);
                       ("error",
                        JStr "POST endpoint not implemented: /api/mixer/microphone/start")])).
Proof.
  exact (proj1 (unknown_route_404 (fun _ => "") env0 (initial_state 0)
                  "/api/mixer/microphone/start" None) eq_refl).
Defined.

(** ** The uptime *)

Lemma Qtruncate_bounds (q : Q) :
  (0 <= q)%Q ->
  0 <= Qtruncate q
  /\ (inject_Z (Qtruncate q) <= q)%Q /\ (q < inject_Z (Qtruncate q) + 1)%Q.
Proof.
  intros Hq. unfold Qtruncate.
  assert (Hnum : 0 <= Qnum q).
  { unfold Qle in Hq. simpl in Hq. lia. }
  rewrite Z.quot_div_nonneg by lia.
  destruct q as [n d]. cbn [Qnum Qden] in *.
  change (n / Z.pos d) with (Qfloor (n # d)).
  split; [|split].
  - apply Z.div_pos; lia.
  - apply Qfloor_le.
  - pose proof (Qlt_floor (n # d)) as H. rewrite inject_Z_plus in H. exact H.
Qed.

Lemma uptime_after_get_8080 (py_str : json -> string) (env : Env) (path : string)
  (payload : option json) (s : ServerState) :
  uptime (fst (MockCppServer.handle py_str env (mkRequest GET path payload) s))
  = Qtruncate (time_now env - start_time s).
Proof.
  unfold MockCppServer.handle. cbn [req_method req_path].
  unfold MockCppServer.do_GET. rewrite run_modify_first.
  apply (run_preserves
           (fun s' => uptime s' = Qtruncate (time_now env - start_time s)));
    [|reflexivity].
  repeat frame_step; assumption.
Qed.

Lemma uptime_after_get_8082 (env : Env) (path : string)
  (payload : option json) (s : ServerState) :
  uptime (fst (StartMockServer8082.handle env (mkRequest GET path payload) s))
  = Qtruncate (time_now env - start_time s).
Proof.
  unfold StartMockServer8082.handle. cbn [req_method req_path].
  unfold StartMockServer8082.do_GET. rewrite run_modify_first.
  apply (run_preserves
           (fun s' => uptime s' = Qtruncate (time_now env - start_time s)));
    [|reflexivity].
  repeat first [apply simulate_audio_levels_frame; intros ? ? Hx; exact Hx
               | frame_step]; assumption.
Qed.

(** X14. When the clock is not before the start time, the uptime a GET
    request stores is the number of whole seconds elapsed: it is not
    negative, not above the elapsed time and less than one second below
    it. *)
Theorem uptime_whole_seconds (py_str : json -> string) (env : Env)
  (path : string) (payload : option json) (s : ServerState) :
  (start_time s <= time_now env)%Q ->
  let elapsed := (time_now env - start_time s)%Q in
  let whole u := 0 <= u /\ (inject_Z u <= elapsed)%Q /\ (elapsed < inject_Z u + 1)%Q in
  whole (uptime (fst (MockCppServer.handle py_str env (mkRequest GET path payload) s)))
  /\ whole (uptime (fst (StartMockServer8082.handle env (mkRequest GET path payload) s))).
Proof.
  intros Hclock elapsed whole. subst whole. cbv beta.
  rewrite uptime_after_get_8080, uptime_after_get_8082.
  assert (H : (0 <= elapsed)%Q) by (subst elapsed; lra).
  split; apply Qtruncate_bounds; exact H.
Qed.

Lemma uptime_whole_seconds_witness :
  let env := mkEnv 12.75 "" (fun _ => 0%Q) (fun _ => 0%nat) (fun _ => true) in
  let elapsed := (12.75 - 2.5)%Q in
  let whole u := 0 <= u /\ (inject_Z u <= elapsed)%Q /\ (elapsed < inject_Z u + 1)%Q in
  whole (uptime (fst (MockCppServer.handle (fun _ => "") env
                        (get "/api/health") (initial_state 2.5))))
  /\ whole (uptime (fst (StartMockServer8082.handle env
                           (get "/api/health") (initial_state 2.5)))).
Proof.
  intros env.
  apply (uptime_whole_seconds (fun _ => "") env "/api/health" None
           (initial_state 2.5)).
  simpl. lra.
Defined.

(** ** The gain request of the port-8082 server *)

(** X15. For every gain percentage that is a float other than nan or an
    integer within the range of a double, POST /api/mixer/microphone/gain
    stores the clamp of the percentage to [0,100] divided by 100 as the gain
    and leaves enabled, muted and talkover as they were; the answer echoes
    the percentage as sent and reports the stored gain as normalized_gain. *)
Theorem gain_request_sets_gain_only (env : Env) (s : ServerState)
  (kv : list (string * json)) (value : json) (g : pyfloat) :
  assoc "gain" kv = Some value ->
  json_number value g ->
  exists x,
    fdiv (clamp g (Finite 0) (Finite 100)) (Finite 100) = Ok x
    /\ in_unit x = true
    /\ StartMockServer8082.handle env
         (post "/api/mixer/microphone/gain" (JDict kv)) s
       = (with_microphone (set_gain x) s,
          Reply 200 (JDict [("success", JBool true);
                            ("action", JStr "microphone_gain_set");
                            ("gain", value);
                            ("normalized_gain", JFloat x)])).
Proof.
  intros Hkv Hnum.
  destruct (fdiv_100 g) as (x & Hx).
  exists x. rewrite <- (max_min_clamp 0 100 g) by (lra || eauto using json_number_not_nan).
  split; [exact Hx | split; [exact (in_unit_percent _ _ Hx)|]].
  unfold StartMockServer8082.handle, run, StartMockServer8082.do_POST, post.
  cbn [req_method req_path req_body read_body].
  change (String.eqb "/api/mixer/microphone/gain" "/api/mixer/microphone/start")
    with false.
  change (String.eqb "/api/mixer/microphone/gain" "/api/mixer/microphone/stop")
    with false.
  change (String.eqb "/api/mixer/microphone/gain" "/api/mixer/microphone/gain")
    with true.
  cbv iota zeta. unfold bind, lift. cbn [dict_get]. rewrite Hkv.
  rewrite (py_float_number _ _ Hnum), Hx. reflexivity.
Qed.

Lemma gain_request_sets_gain_only_witness :
  exists x,
    fdiv (clamp (Finite 30) (Finite 0) (Finite 100)) (Finite 100) = Ok x
    /\ in_unit x = true
    /\ StartMockServer8082.handle env0
         (post "/api/mixer/microphone/gain" (JDict [("gain", JInt 30)]))
         (initial_state 0)
       = (with_microphone (set_gain x) (initial_state 0),
          Reply 200 (JDict [("success", JBool true);
                            ("action", JStr "microphone_gain_set");
                            ("gain", JInt 30);
                            ("normalized_gain", JFloat x)])).
Proof.
  exact (gain_request_sets_gain_only env0 (initial_state 0) [("gain", JInt 30)]
           (JInt 30) (Finite (inject_Z 30)) eq_refl (number_int 30 eq_refl)).
Defined.

(** ** The levels of a status query *)

Lemma in_range_sample (env : Env) (lo hi : Q) (i : nat) :
  random_in_range env -> (lo < hi)%Q ->
  in_range (Finite lo) (Finite hi)
    (fadd (Finite lo)
       (fmul (fsub (Finite hi) (Finite lo)) (Finite (random_draw env i))))
  = true.
Proof.
  intros Hrand Hlt. specialize (Hrand i).
  unfold in_range. simpl. apply andb_true_iff. split.
  - apply Qle_bool_iff. rewrite !Qred_correct. nra.
  - apply Qltb_lt. rewrite !Qred_correct. nra.
Qed.

(** X16. With two channels in the mixer, a status query of either server
    reads both levels of a channel that does not play as exactly 0 and both
    levels of a channel that plays as samples of [0.3, 0.9). *)
Theorem status_channel_levels (py_str : json -> string) (env : Env)
  (s : ServerState) (c1 c2 : Channel) :
  channels (mixer s) = [c1; c2] ->
  random_in_range env ->
  let levels a :=
    level_of (is_playing c1) (channel_1_left a)
    /\ level_of (is_playing c1) (channel_1_right a)
    /\ level_of (is_playing c2) (channel_2_left a)
    /\ level_of (is_playing c2) (channel_2_right a) in
  levels (audio_levels
            (fst (MockCppServer.handle py_str env (get "/api/mixer/status") s)))
  /\ levels (audio_levels
               (fst (StartMockServer8082.handle env (get "/api/mixer/status") s))).
Proof.
  intros Hch Hrand levels. subst levels. cbv beta.
  destruct s as [st0 up t0 [cf mv chans] [on mu g talk] lv].
  cbn [mixer channels] in Hch. subst chans.
  destruct c1 as [i1 v1 t1 p1 pos1 e1], c2 as [i2 v2 t2 p2 pos2 e2], lv.
  assert (Hs : forall i,
             in_range (Finite 0.3) (Finite 0.9)
               (fadd (Finite 0.3)
                  (fmul (fsub (Finite 0.9) (Finite 0.3))
                     (Finite (random_draw env i)))) = true)
    by (intros i; apply in_range_sample; [exact Hrand | lra]).
  split.
  - destruct p1, p2;
      lazy -[fmul fsub fadd py_max in_range Qtruncate Qminus];
      repeat split; first [apply Hs | reflexivity].
  - destruct on, p1, p2;
      lazy -[fmul fsub fadd py_max3 in_range Qtruncate Qminus];
      repeat split; first [apply Hs | reflexivity].
Qed.

Lemma status_channel_levels_witness :
  let s := with_mixer
             (fun m => set_channels (alter (set_is_playing true) 0%nat (channels m)) m)
             (initial_state 0) in
  let levels a :=
    in_range (Finite 0.3) (Finite 0.9) (channel_1_left a) = true
    /\ in_range (Finite 0.3) (Finite 0.9) (channel_1_right a) = true
    /\ channel_2_left a = Finite 0
    /\ channel_2_right a = Finite 0 in
  levels (audio_levels
            (fst (MockCppServer.handle (fun _ => "") env_half
                    (get "/api/mixer/status") s)))
  /\ levels (audio_levels
               (fst (StartMockServer8082.handle env_half
                       (get "/api/mixer/status") s))).
Proof.
  intros s.
  exact (status_channel_levels (fun _ => "") env_half s
           (set_is_playing true (initial_channel 1)) (initial_channel 2)
           eq_refl half_in_range).
Defined.

Lemma microphone_sample_bounds (env : Env) (g : pyfloat) (i : nat) :
  in_unit g = true -> random_in_range env ->
  let x := fmul (fadd (Finite 0.3)
                   (fmul (fsub (Finite 0.8) (Finite 0.3))
                      (Finite (random_draw env i)))) g in
  fle (fmul (Finite 0.3) g) x = true /\ fle x (fmul (Finite 0.8) g) = true.
Proof.
  intros (q & -> & Hq)%in_unit_finite Hrand. specialize (Hrand i). simpl.
  split; apply Qle_bool_iff; rewrite !Qred_correct; nra.
Qed.

(** X17. With two channels in the mixer and the gain in [0,1], a status
    query of the port-8082 server reads the microphone level as exactly 0
    while the microphone is disabled, and otherwise as a sample of
    [0.3, 0.8) times the gain: between 0.3 and 0.8 times the gain. *)
Theorem status_microphone_level (env : Env) (s : ServerState) (c1 c2 : Channel) :
  channels (mixer s) = [c1; c2] ->
  in_unit (gain (microphone s)) = true ->
  random_in_range env ->
  let level :=
    microphone_level
      (audio_levels
         (fst (StartMockServer8082.handle env (get "/api/mixer/status") s))) in
  if enabled (microphone s)
  then fle (fmul (Finite 0.3) (gain (microphone s))) level = true
       /\ fle level (fmul (Finite 0.8) (gain (microphone s))) = true
  else level = Finite 0.
Proof.
  intros Hch Hg Hrand level. subst level.
  destruct s as [st0 up t0 [cf mv chans] [on mu g talk] lv].
  cbn [mixer channels microphone gain enabled] in *. subst chans.
  destruct c1 as [i1 v1 t1 p1 pos1 e1], c2 as [i2 v2 t2 p2 pos2 e2], lv.
  pose proof (microphone_sample_bounds env g 0 Hg Hrand) as Hm.
  cbv zeta in Hm.
  destruct on, p1, p2;
    lazy -[fmul fsub fadd py_max3 fle Qtruncate Qminus];
    first [exact Hm | reflexivity].
Qed.

Lemma status_microphone_level_witness :
  let s := with_microphone (set_enabled true) (initial_state 0) in
  let level :=
    microphone_level
      (audio_levels
         (fst (StartMockServer8082.handle env_half (get "/api/mixer/status") s))) in
  fle (fmul (Finite 0.3) (Finite 0.5)) level = true
  /\ fle level (fmul (Finite 0.8) (Finite 0.5)) = true.
Proof.
  intros s.
  exact (status_microphone_level env_half s (initial_channel 1) (initial_channel 2)
           eq_refl eq_refl half_in_range).
Defined.

(** ** The crossfader at its ends *)

Lemma mix_crossfader_0 (l1 l2 v1 v2 m : pyfloat) :
  in_unit l1 = true -> in_unit l2 = true -> in_unit v1 = true ->
  in_unit v2 = true -> in_unit m = true ->
  py_max (fmul (fmul (fmul l1 v1) (fsub (Finite 1) (Finite 0))) m)
         (fmul (fmul (fmul l2 v2) (Finite 0)) m)
  = fmul (fmul l1 v1) m.
Proof.
  intros (a & -> & Ha)%in_unit_finite (b & -> & Hb)%in_unit_finite
    (p & -> & Hp)%in_unit_finite (q & -> & Hq)%in_unit_finite
    (r & -> & Hr)%in_unit_finite.
  unfold py_max. simpl.
  assert (Hw : Qred (1 + Qred (- 0)) = 1%Q) by reflexivity. rewrite Hw.
  replace (Qred (Qred (Qred (b * q) * 0) * r)) with 0%Q
    by (symmetry; apply (Qred_complete _ 0); rewrite !Qred_correct; lra).
  replace (Qred (Qred (Qred (a * p) * 1) * r)) with (Qred (Qred (a * p) * r))
    by (apply Qred_complete; rewrite !Qred_correct; lra).
  destruct (Qltb (Qred (Qred (a * p) * r)) 0) eqn:E; [|reflexivity].
  apply Qltb_lt in E. rewrite !Qred_correct in E.
  assert (0 <= a * p)%Q by nra. nra.
Qed.

Lemma mix_crossfader_1 (l1 l2 v1 v2 m : pyfloat) :
  in_unit l1 = true -> in_unit l2 = true -> in_unit v1 = true ->
  in_unit v2 = true -> in_unit m = true ->
  py_max (fmul (fmul (fmul l1 v1) (fsub (Finite 1) (Finite 1))) m)
         (fmul (fmul (fmul l2 v2) (Finite 1)) m)
  = fmul (fmul l2 v2) m.
Proof.
  intros (a & -> & Ha)%in_unit_finite (b & -> & Hb)%in_unit_finite
    (p & -> & Hp)%in_unit_finite (q & -> & Hq)%in_unit_finite
    (r & -> & Hr)%in_unit_finite.
  unfold py_max. simpl.
  assert (Hw : Qred (1 + Qred (- (1))) = 0%Q) by reflexivity. rewrite Hw.
  replace (Qred (Qred (Qred (a * p) * 0) * r)) with 0%Q
    by (symmetry; apply (Qred_complete _ 0); rewrite !Qred_correct; lra).
  replace (Qred (Qred (Qred (b * q) * 1) * r)) with (Qred (Qred (b * q) * r))
    by (apply Qred_complete; rewrite !Qred_correct; lra).
  destruct (Qltb 0 (Qred (Qred (b * q) * r))) eqn:E; [reflexivity|].
  apply Qltb_ge in E. rewrite !Qred_correct in E.
  assert (0 <= b * q)%Q by nra.
  f_equal. apply (Qred_complete 0). rewrite Qred_correct.
  apply Qle_antisym; [nra | exact E].
Qed.

(** X18. On the port-8080 server, in a state that satisfies the invariants,
    the crossfader at 0 makes the master level the level of channel 1 times
    its volume times the master volume, whatever channel 2 does, and the
    crossfader at 1 makes it that of channel 2. *)
Theorem crossfader_ends_select_channel (py_str : json -> string) (env : Env)
  (s : ServerState) (c1 c2 : Channel) :
  invariant s ->
  channels (mixer s) = [c1; c2] ->
  random_in_range env ->
  let a := audio_levels
             (fst (MockCppServer.handle py_str env (get "/api/mixer/status") s)) in
  (crossfader (mixer s) = Finite 0 ->
   master_left a
   = fmul (fmul (channel_1_left a) (volume c1)) (master_volume (mixer s)))
  /\ (crossfader (mixer s) = Finite 1 ->
      master_left a
      = fmul (fmul (channel_2_left a) (volume c2)) (master_volume (mixer s))).
Proof.
  intros [Hc Hm Hlen Hids Hv Hp Hg] Hch Hrand a. subst a.
  destruct s as [st0 up t0 [cf mv chans] mic lv].
  cbn [mixer crossfader master_volume channels microphone] in *. subst chans.
  inversion Hv as [|? ? Hv1 Hv']; inversion Hv' as [|? ? Hv2 _]; subst.
  destruct c1 as [i1 v1 t1 p1 pos1 e1], c2 as [i2 v2 t2 p2 pos2 e2].
  cbn [volume] in *. destruct lv.
  clear Hlen Hids Hv Hp Hv' Hg.
  assert (H0 : in_unit (Finite 0) = true) by reflexivity.
  assert (Hu : forall i,
             in_unit (fadd (Finite 0.3)
                        (fmul (fsub (Finite 0.9) (Finite 0.3))
                           (Finite (random_draw env i)))) = true)
    by (intros i; apply in_unit_sample; [exact Hrand | lra ..]).
  split; intros ->;
    destruct p1, p2; lazy -[fmul fsub fadd py_max Qtruncate Qminus];
    first [apply mix_crossfader_0 | apply mix_crossfader_1]; auto.
Qed.

Lemma crossfader_ends_select_channel_witness :
  let s := with_mixer (set_crossfader (Finite 0))
             (with_mixer
                (fun m => set_channels
                            (alter (set_is_playing true) 1%nat (channels m)) m)
                (initial_state 0)) in
  let a := audio_levels
             (fst (MockCppServer.handle (fun _ => "") env_half
                     (get "/api/mixer/status") s)) in
  master_left a = fmul (fmul (channel_1_left a) (Finite 0.7)) (Finite 0.8).
Proof.
  intros s a.
  refine (proj1 (crossfader_ends_select_channel (fun _ => "") env_half s
                   (initial_channel 1) (set_is_playing true (initial_channel 2))
                   _ eq_refl half_in_range) eq_refl).
  split; simpl; try reflexivity; repeat constructor.
Defined.

(** ** GET /api/stats *)

Lemma round_half_even_between (x : Q) (a b : Z) :
  (inject_Z a <= x <= inject_Z b)%Q -> a <= round_half_even x <= b.
Proof.
  intros [Ha Hb]. unfold round_half_even.
  assert (Hlo : a <= Qfloor x).
  { rewrite <- (Qfloor_Z a). now apply Qfloor_resp_le. }
  assert (Hhi : Qfloor x <= b).
  { rewrite <- (Qfloor_Z b). now apply Qfloor_resp_le. }
  pose proof (Qfloor_le x) as Hfl.
  destruct (Z.eq_dec (Qfloor x) b) as [Heq|Hne].
  - assert (Hc : (x - inject_Z (Qfloor x) ?= 1 # 2)%Q = Lt).
    { apply (proj1 (Qlt_alt _ _)). rewrite Heq. lra. }
    rewrite Hc. lia.
  - destruct (x - inject_Z (Qfloor x) ?= 1 # 2)%Q;
      try destruct (Z.even (Qfloor x)); lia.
Qed.

Lemma py_round1_between (x : pyfloat) (a b : Z) :
  (exists q, x = Finite q /\ (inject_Z a <= q <= inject_Z b)%Q) ->
  exists q, py_round1 x = Finite q /\ (inject_Z a <= q <= inject_Z b)%Q.
Proof.
  intros (q & -> & Hq). simpl. eexists. split; [reflexivity|].
  assert (H : 10 * a <= round_half_even (q * 10) <= 10 * b).
  { apply round_half_even_between. rewrite !inject_Z_mult.
    change (inject_Z 10) with 10%Q. lra. }
  rewrite Qred_correct.
  assert (Hl : (inject_Z (10 * a) <= inject_Z (round_half_even (q * 10)))%Q)
    by (rewrite <- Zle_Qle; lia).
  assert (Hr : (inject_Z (round_half_even (q * 10)) <= inject_Z (10 * b))%Q)
    by (rewrite <- Zle_Qle; lia).
  rewrite !inject_Z_mult in Hl, Hr. change (inject_Z 10) with 10%Q in Hl, Hr.
  split; [apply Qle_shift_div_l | apply Qle_shift_div_r]; lra.
Qed.

Lemma uniform_between (env : Env) (a b : Z) (i : nat) :
  random_in_range env -> a <= b ->
  exists q,
    fadd (Finite (inject_Z a))
      (fmul (fsub (Finite (inject_Z b)) (Finite (inject_Z a)))
         (Finite (random_draw env i))) = Finite q
    /\ (inject_Z a <= q <= inject_Z b)%Q.
Proof.
  intros Hrand Hab. specialize (Hrand i). simpl. eexists. split; [reflexivity|].
  rewrite !Qred_correct. rewrite Zle_Qle in Hab. split; nra.
Qed.

(** X19. Whatever the random source draws from [0, 1), GET /api/stats of the
    port-8080 server answers 200 with success true, a cpu_usage between 10
    and 30, a memory_usage between 40 and 80, the audio_buffer_health good
    and between 0 and 5 active connections, beside the uptime. *)
Theorem stats_within_bounds (py_str : json -> string) (env : Env)
  (s : ServerState) (payload : option json) :
  random_in_range env ->
  exists cpu memory connections,
    snd (MockCppServer.handle py_str env (mkRequest GET "/api/stats" payload) s)
    = Reply 200
        (JDict [("success", JBool true);
                ("stats",
                 JDict [("uptime",
                         JInt (Qtruncate (time_now env - start_time s)));
                        ("cpu_usage", JFloat (Finite cpu));
                        ("memory_usage", JFloat (Finite memory));
                        ("audio_buffer_health", JStr "good");
                        ("active_connections", JInt connections)])])
    /\ (10 <= cpu <= 30)%Q /\ (40 <= memory <= 80)%Q /\ 0 <= connections <= 5.
Proof.
  intros Hrand.
  destruct (py_round1_between
              (fadd (Finite 10) (fmul (fsub (Finite 30) (Finite 10))
                                   (Finite (random_draw env 0)))) 10 30)
    as (cpu & Hcpu & Hcpu_bounds).
  { apply (uniform_between env 10 30 0 Hrand). lia. }
  destruct (py_round1_between
              (fadd (Finite 40) (fmul (fsub (Finite 80) (Finite 40))
                                   (Finite (random_draw env 1)))) 40 80)
    as (memory & Hmemory & Hmemory_bounds).
  { apply (uniform_between env 40 80 1 Hrand). lia. }
  exists cpu, memory, (0 + Z.of_nat (randbelow_draw env 2) mod (5 - 0 + 1)).
  split; [|split; [exact Hcpu_bounds | split; [exact Hmemory_bounds|]]].
  - rewrite <- Hcpu, <- Hmemory. reflexivity.
  - pose proof (Z.mod_pos_bound (Z.of_nat (randbelow_draw env 2)) (5 - 0 + 1)).
    lia.
Qed.

Lemma stats_within_bounds_witness :
  exists cpu memory connections,
    snd (MockCppServer.handle (fun _ => "") env_half (get "/api/stats")
           (initial_state 0))
    = Reply 200
        (JDict [("success", JBool true);
                ("stats",
                 JDict [("uptime", JInt (Qtruncate (0 - 0)));
                        ("cpu_usage", JFloat (Finite cpu));
                        ("memory_usage", JFloat (Finite memory));
                        ("audio_buffer_health", JStr "good");
                        ("active_connections", JInt connections)])])
    /\ (10 <= cpu <= 30)%Q /\ (40 <= memory <= 80)%Q /\ 0 <= connections <= 5.
Proof.
  exact (stats_within_bounds (fun _ => "") env_half (initial_state 0) None
           half_in_range).
Defined.

(** ** Sending back what the server reported *)

Lemma max_min_idempotent (x : pyfloat) :
  let y := py_max (Finite 0) (py_min (Finite 1) x) in
  py_max (Finite 0) (py_min (Finite 1) y) = y.
Proof.
  destruct x as [q| | |]; try reflexivity.
  unfold py_max, py_min. simpl.
  destruct (Qltb q 1) eqn:E1; simpl; [|reflexivity].
  destruct (Qltb 0 q) eqn:E2; simpl; [|reflexivity].
  now rewrite E1, E2.
Qed.

(** X20. The value a crossfader or master-volume answer reports is a fixed
    point: sent back as the value of the same request, it gives the same
    state and the same answer again. *)
Theorem reported_value_is_stable (py_str : json -> string) (env env' : Env)
  (s : ServerState) (kv : list (string * json)) (value : json) (x : pyfloat) :
  assoc "value" kv = Some value ->
  py_float value = Ok x ->
  (let r := MockCppServer.handle py_str env
              (post "/api/mixer/crossfader" (JDict kv)) s in
   MockCppServer.handle py_str env'
     (post "/api/mixer/crossfader"
        (JDict [("value", JFloat (crossfader (mixer (fst r))))])) (fst r)
   = r)
  /\ (let r := MockCppServer.handle py_str env
                 (post "/api/mixer/master/volume" (JDict kv)) s in
      MockCppServer.handle py_str env'
        (post "/api/mixer/master/volume"
           (JDict [("value", JFloat (master_volume (mixer (fst r))))])) (fst r)
      = r).
Proof.
  intros Hkv Hx. destruct s as [st0 up t0 [cf mv chans] mic lv].
  pose proof (max_min_idempotent x) as Hy. cbv zeta in Hy.
  split; unfold MockCppServer.handle, run, MockCppServer.do_POST, post; cbn;
    unfold bind, lift; cbn; rewrite Hkv, Hx; cbn; rewrite Hy; reflexivity.
Qed.

Lemma reported_value_is_stable_witness :
  let r := MockCppServer.handle (fun _ => "") env0
             (post "/api/mixer/crossfader" (JDict [("value", JStr "2.5")]))
             (initial_state 0) in
  MockCppServer.handle (fun _ => "") env0
    (post "/api/mixer/crossfader"
       (JDict [("value", JFloat (crossfader (mixer (fst r))))])) (fst r)
  = r.
Proof.
  exact (proj1 (reported_value_is_stable (fun _ => "") env0 env0 (initial_state 0)
                  [("value", JStr "2.5")] (JStr "2.5") (Finite (5 # 2))
                  eq_refl eq_refl)).
Defined.

(** ** Requests that are always answered *)




(** ** The exceptions that can end a POST *)

Section RaisesWithin.
Context (E : exn -> Prop).












End RaisesWithin.






